(** * eco-pack-ai: the dashboard client [frontend/static/js/app.js]

    A shallow embedding of the browser script and the properties of its
    result presenter: extrema selection, table ranks, number formatting,
    request validation and failure handling.

    JavaScript numbers are IEEE 754 binary64 values; they are modelled by
    the Standard Library's [spec_float] at precision 53 and exponent
    bound 1024.  The page (DOM) is an explicit state, threaded through a
    small state-and-exception monad. *)

From Stdlib Require Import ZArith List String Ascii Bool Lia.
From Stdlib Require Import Floats.SpecFloat.
From Stdlib Require Import Numbers.DecimalString Numbers.DecimalN Numbers.DecimalPos.
From Stdlib Require Import Sorting.Permutation.
Import ListNotations.

Local Open Scope string_scope.
Local Open Scope Z_scope.

(** ** The platform: numbers, arrays and strings of the language *)

Module JS.

Definition number : Type := spec_float.

Definition prec : Z := 53.
Definition emax : Z := 1024.

(** A numeric literal with an integer value. *)
Definition of_Z (n : Z) : number := binary_normalize prec emax n 0 false.

(** [x < y] and [x <= y]: false as soon as an operand is NaN. *)
Definition lt (x y : number) : bool := SFltb x y.
Definition le (x y : number) : bool := SFleb x y.

Definition mul (x y : number) : number := SFmul prec emax x y.

(** The global [isNaN], applied to a number. *)
Definition isNaN (x : number) : bool :=
  match x with S754_nan => true | _ => false end.

(** SameValueZero on numbers, the equality of [Array.prototype.includes]. *)
Definition sameValueZero (x y : number) : bool :=
  (isNaN x && isNaN y) || SFeqb x y.

Definition includes (l : list number) (x : number) : bool :=
  existsb (fun y => sameValueZero y x) l.

(** [Array.prototype.reduce] without an initial value: the first element
    seeds the accumulator and the callback runs on the others from left to
    right; on an empty array it throws (here [None]). *)
Definition reduce {A : Type} (f : A -> A -> A) (l : list A) : option A :=
  match l with
  | [] => None
  | x :: xs => Some (fold_left f xs x)
  end.

(** [l.map((x, i) => f(x, i))], the index counted from [i]. *)
Fixpoint mapi_from {A B : Type} (f : A -> nat -> B) (i : nat) (l : list A)
  : list B :=
  match l with
  | [] => []
  | x :: xs => f x i :: mapi_from f (S i) xs
  end.

Definition mapi {A B : Type} (f : A -> nat -> B) (l : list A) : list B :=
  mapi_from f 0 l.

(** The decimal numeral of a non-negative integer, as template literals
    and [toFixed] print it. *)
Definition digits (n : N) : string := NilZero.string_of_uint (N.to_uint n).

(** *** [Number.prototype.toFixed]

    The value of [S754_finite s m e] is [(-1)^s * m * 2^e]; everything
    below is exact integer arithmetic on [m] and [e]. *)

(** [10^21 <= m * 2^e]. *)
Definition ge_1e21 (m : positive) (e : Z) : bool :=
  if 0 <=? e then 10 ^ 21 <=? Zpos m * 2 ^ e
  else 10 ^ 21 * 2 ^ (- e) <=? Zpos m.

(** The integer [n] for which [n / 10^f - m * 2^e] is as close to zero as
    possible, the larger one when there are two. *)
Definition nearest (m : positive) (e : Z) (f : nat) : Z :=
  let scaled := Zpos m * 10 ^ Z.of_nat f in
  if 0 <=? e then scaled * 2 ^ e
  else (2 * scaled + 2 ^ (- e)) / (2 * 2 ^ (- e)).

Fixpoint zeros (k : nat) : string :=
  match k with
  | O => ""
  | S k' => String "0" (zeros k')
  end.

(** Steps 11.b and 11.c: the digits of [n], padded on the left to at least
    [f + 1] characters when [f <> 0], with a point before the last [f]. *)
Definition fixed (n : Z) (f : nat) : string :=
  let m := digits (Z.to_N n) in
  match f with
  | O => m
  | S _ =>
      let k := String.length m in
      let m := if (k <=? f)%nat then zeros (f + 1 - k) ++ m else m in
      let k := String.length m in
      substring 0 (k - f) m ++ "." ++ substring (k - f) f m
  end.

(** *** [Number::toString] for values of at least [10^21]

    Such a value is printed in exponent notation with the fewest
    significant digits that read back as the same number. *)

Fixpoint strip_zeros (s : string) : string :=
  match s with
  | EmptyString => EmptyString
  | String c r =>
      match strip_zeros r with
      | EmptyString => if Ascii.eqb c "0" then EmptyString else String c EmptyString
      | r' => String c r'
      end
  end.

(** [d.ddd e+x] for the integer [c]. *)
Definition exponential (c : Z) : string :=
  let d := digits (Z.to_N c) in
  let x := digits (N.of_nat (String.length d - 1)) in
  match strip_zeros d with
  | EmptyString => "0"
  | String c0 EmptyString => String c0 ("e+" ++ x)
  | String c0 r => String c0 ("." ++ r ++ "e+" ++ x)
  end.

(** The multiples of [10^(n0 - k)] next to [v] that read back as [x], the
    closer one first, for [k = 1, 2, ...]. *)
Fixpoint shortest (x : number) (v : Z) (n0 : nat) (ks : list nat) : Z :=
  match ks with
  | [] => v
  | k :: ks' =>
      let unit := 10 ^ Z.of_nat (n0 - k) in
      let lo := v / unit * unit in
      let hi := lo + unit in
      let ok c := SFeqb (of_Z c) x in
      if ok lo && ok hi then (if v - lo <=? hi - v then lo else hi)
      else if ok lo then lo
      else if ok hi then hi
      else shortest x v n0 ks'
  end.

Definition toString_large (m : positive) (e : Z) : string :=
  let v := if 0 <=? e then Zpos m * 2 ^ e else Zpos m / 2 ^ (- e) in
  let n0 := String.length (digits (Z.to_N v)) in
  exponential (shortest (S754_finite false m e) v n0 (seq 1 n0)).

Definition toFixed (x : number) (f : nat) : string :=
  match x with
  | S754_nan => "NaN"
  | S754_infinity s => if s then "-Infinity" else "Infinity"
  | S754_zero _ => fixed 0 f
  | S754_finite s m e =>
      (if s then "-" else "") ++
      (if ge_1e21 m e then toString_large m e else fixed (nearest m e f) f)
  end.

(** The number a JSON decimal literal [n / 10^k] denotes ([|n| < 2^53],
    [k <= 15]): the correctly rounded quotient of two exact values. *)
Definition decimal (n : Z) (k : nat) : number :=
  SFdiv prec emax (of_Z n) (of_Z (10 ^ Z.of_nat k)).

End JS.

Arguments JS.of_Z : simpl never.
Arguments JS.mul : simpl never.
Arguments JS.decimal : simpl never.
Arguments JS.toFixed : simpl never.
Arguments JS.digits : simpl never.
Arguments JS.lt : simpl never.
Arguments JS.le : simpl never.
Arguments JS.includes : simpl never.

(** ** The data model *)

Record ComparisonRecord : Type := {
  current_material : string;
  recommended_material : string;
  current_cost_inr : JS.number;
  recommended_cost_inr : JS.number;
  current_co2_kg : JS.number;
  recommended_co2_kg : JS.number;
  cost_difference_inr : JS.number;
  co2_savings_kg : JS.number;
  co2_reduction_percent : JS.number;
  recommended_eco_score : JS.number
}.

Record RecommendationRecord : Type := {
  material_name : string;
  material_type : string;
  suitability_score : JS.number;
  predicted_cost_inr : JS.number;
  predicted_co2_kg : JS.number;
  eco_score : JS.number
}.

(** ** Analytics of [displayResults]: the three selections *)

(** The callback of the first [reduce]:
    [(a, b) => b.predicted_cost_inr < a.predicted_cost_inr ? b : a]. *)
Definition cheaper (a b : RecommendationRecord) : RecommendationRecord :=
  if JS.lt (predicted_cost_inr b) (predicted_cost_inr a) then b else a.

(** The callback of the second [reduce]:
    [(a, b) => b.predicted_co2_kg < a.predicted_co2_kg ? b : a]. *)
Definition cleaner (a b : RecommendationRecord) : RecommendationRecord :=
  if JS.lt (predicted_co2_kg b) (predicted_co2_kg a) then b else a.

Definition lowestCost (recs : list RecommendationRecord)
  : option RecommendationRecord := JS.reduce cheaper recs.

Definition lowestCO2 (recs : list RecommendationRecord)
  : option RecommendationRecord := JS.reduce cleaner recs.

(** [recs[0]]: [None] stands for [undefined]. *)
Definition best (recs : list RecommendationRecord)
  : option RecommendationRecord := nth_error recs 0.

(** ** The page

    Every element the script reads or writes by id.  An [innerHTML]
    assignment is kept as the list of the elements it creates, each with the
    text of its cells; the fixed markup around the cells is left out. *)

Record AlertBox : Type := {
  alert_text : string;
  alert_display : string;
  alert_class : string
}.

Record Card : Type := {
  card_class : string;
  card_name : string;
  card_suitability : string;
  card_cost : string;
  card_co2 : string;
  card_eco : string
}.

Record AnalyticsBox : Type := {
  box_label : string;
  box_value : string;
  box_sub : string
}.

Record Chart : Type := {
  chart_labels : list string;
  chart_cost : list JS.number;
  chart_co2 : list JS.number
}.

Record TableRow : Type := {
  row_name : string;
  row_type : string;
  row_suitability : string;
  row_cost : string;
  row_co2 : string;
  row_eco : string;
  row_rank : string
}.

Record ComparisonCard : Type := {
  comparison_class : string;
  comparison_label : string;
  comparison_value : string;
  comparison_details : list string
}.

(** The objects the script hands to [JSON.stringify] for its two POST
    requests.  What the serialisation writes is [stringify_recommend] and
    [stringify_compare] below. *)
Record RecommendPayload : Type := {
  category : string;
  weight : JS.number;
  top_n : JS.number;
  fragility_override : string;
  budget_limit : option JS.number
}.

Record ComparePayload : Type := {
  compare_category : string;
  compare_weight : JS.number;
  compare_current_material : string
}.

(** A request, with the object its body is serialised from. *)
Inductive Request : Type :=
| GetCategories
| GetMaterials
| PostRecommend (payload : RecommendPayload)
| PostCompare (payload : ComparePayload).

(** *** The body on the wire

    [JSON.stringify] on the members the two objects have: strings and
    numbers, and [null] for the budget that is not given. *)

Inductive json : Type :=
| JNull
| JNumber (x : JS.number)
| JString (s : string).

(** A number member: NaN and the infinities are written [null], and a
    negative zero is written [0]. *)
Definition json_number (x : JS.number) : json :=
  match x with
  | S754_zero _ => JNumber (S754_zero false)
  | S754_finite _ _ _ => JNumber x
  | _ => JNull
  end.

(** The numbers that are written as such: the finite ones. *)
Definition is_finite (x : JS.number) : bool :=
  match x with
  | S754_zero _ | S754_finite _ _ _ => true
  | _ => false
  end.

(** [JSON.stringify(payload)], the members in the order of the object
    literal. *)
Definition stringify_recommend (pl : RecommendPayload) : list (string * json) :=
  [ ("category", JString (category pl));
    ("weight", json_number (weight pl));
    ("top_n", json_number (top_n pl));
    ("fragility_override", JString (fragility_override pl));
    ("budget_limit", match budget_limit pl with
                     | None => JNull
                     | Some x => json_number x
                     end) ].

(** [JSON.stringify({category, weight, current_material})] *)
Definition stringify_compare (b : ComparePayload) : list (string * json) :=
  [ ("category", JString (compare_category b));
    ("weight", json_number (compare_weight b));
    ("current_material", JString (compare_current_material b)) ].

Record Page : Type := {
  alertBox : AlertBox;
  categorySelect : list string;
  currentMaterialSelect : list string;
  materialsGrid : list Card;
  analyticsGrid : list AnalyticsBox;
  comparisonChart : option Chart;
  summaryTbody : list TableRow;
  resultsSection : string;
  savingsSection : string;
  savingsMetrics : list AnalyticsBox;
  savingsDetails : list ComparisonCard;
  recommendBtn : bool * string;
  fetched : list Request
}.

Definition set_alertBox (a : AlertBox) (p : Page) : Page :=
  {| alertBox := a; categorySelect := categorySelect p;
     currentMaterialSelect := currentMaterialSelect p;
     materialsGrid := materialsGrid p; analyticsGrid := analyticsGrid p;
     comparisonChart := comparisonChart p; summaryTbody := summaryTbody p;
     resultsSection := resultsSection p; savingsSection := savingsSection p;
     savingsMetrics := savingsMetrics p; savingsDetails := savingsDetails p;
     recommendBtn := recommendBtn p; fetched := fetched p |}.

Definition set_categorySelect (l : list string) (p : Page) : Page :=
  {| alertBox := alertBox p; categorySelect := l;
     currentMaterialSelect := currentMaterialSelect p;
     materialsGrid := materialsGrid p; analyticsGrid := analyticsGrid p;
     comparisonChart := comparisonChart p; summaryTbody := summaryTbody p;
     resultsSection := resultsSection p; savingsSection := savingsSection p;
     savingsMetrics := savingsMetrics p; savingsDetails := savingsDetails p;
     recommendBtn := recommendBtn p; fetched := fetched p |}.

Definition set_currentMaterialSelect (l : list string) (p : Page) : Page :=
  {| alertBox := alertBox p; categorySelect := categorySelect p;
     currentMaterialSelect := l;
     materialsGrid := materialsGrid p; analyticsGrid := analyticsGrid p;
     comparisonChart := comparisonChart p; summaryTbody := summaryTbody p;
     resultsSection := resultsSection p; savingsSection := savingsSection p;
     savingsMetrics := savingsMetrics p; savingsDetails := savingsDetails p;
     recommendBtn := recommendBtn p; fetched := fetched p |}.

Definition set_materialsGrid (l : list Card) (p : Page) : Page :=
  {| alertBox := alertBox p; categorySelect := categorySelect p;
     currentMaterialSelect := currentMaterialSelect p;
     materialsGrid := l; analyticsGrid := analyticsGrid p;
     comparisonChart := comparisonChart p; summaryTbody := summaryTbody p;
     resultsSection := resultsSection p; savingsSection := savingsSection p;
     savingsMetrics := savingsMetrics p; savingsDetails := savingsDetails p;
     recommendBtn := recommendBtn p; fetched := fetched p |}.

Definition set_analyticsGrid (l : list AnalyticsBox) (p : Page) : Page :=
  {| alertBox := alertBox p; categorySelect := categorySelect p;
     currentMaterialSelect := currentMaterialSelect p;
     materialsGrid := materialsGrid p; analyticsGrid := l;
     comparisonChart := comparisonChart p; summaryTbody := summaryTbody p;
     resultsSection := resultsSection p; savingsSection := savingsSection p;
     savingsMetrics := savingsMetrics p; savingsDetails := savingsDetails p;
     recommendBtn := recommendBtn p; fetched := fetched p |}.

Definition set_comparisonChart (c : option Chart) (p : Page) : Page :=
  {| alertBox := alertBox p; categorySelect := categorySelect p;
     currentMaterialSelect := currentMaterialSelect p;
     materialsGrid := materialsGrid p; analyticsGrid := analyticsGrid p;
     comparisonChart := c; summaryTbody := summaryTbody p;
     resultsSection := resultsSection p; savingsSection := savingsSection p;
     savingsMetrics := savingsMetrics p; savingsDetails := savingsDetails p;
     recommendBtn := recommendBtn p; fetched := fetched p |}.

Definition set_summaryTbody (l : list TableRow) (p : Page) : Page :=
  {| alertBox := alertBox p; categorySelect := categorySelect p;
     currentMaterialSelect := currentMaterialSelect p;
     materialsGrid := materialsGrid p; analyticsGrid := analyticsGrid p;
     comparisonChart := comparisonChart p; summaryTbody := l;
     resultsSection := resultsSection p; savingsSection := savingsSection p;
     savingsMetrics := savingsMetrics p; savingsDetails := savingsDetails p;
     recommendBtn := recommendBtn p; fetched := fetched p |}.

Definition set_resultsSection (d : string) (p : Page) : Page :=
  {| alertBox := alertBox p; categorySelect := categorySelect p;
     currentMaterialSelect := currentMaterialSelect p;
     materialsGrid := materialsGrid p; analyticsGrid := analyticsGrid p;
     comparisonChart := comparisonChart p; summaryTbody := summaryTbody p;
     resultsSection := d; savingsSection := savingsSection p;
     savingsMetrics := savingsMetrics p; savingsDetails := savingsDetails p;
     recommendBtn := recommendBtn p; fetched := fetched p |}.

Definition set_savingsSection (d : string) (p : Page) : Page :=
  {| alertBox := alertBox p; categorySelect := categorySelect p;
     currentMaterialSelect := currentMaterialSelect p;
     materialsGrid := materialsGrid p; analyticsGrid := analyticsGrid p;
     comparisonChart := comparisonChart p; summaryTbody := summaryTbody p;
     resultsSection := resultsSection p; savingsSection := d;
     savingsMetrics := savingsMetrics p; savingsDetails := savingsDetails p;
     recommendBtn := recommendBtn p; fetched := fetched p |}.

Definition set_savings (m : list AnalyticsBox) (d : list ComparisonCard)
  (p : Page) : Page :=
  {| alertBox := alertBox p; categorySelect := categorySelect p;
     currentMaterialSelect := currentMaterialSelect p;
     materialsGrid := materialsGrid p; analyticsGrid := analyticsGrid p;
     comparisonChart := comparisonChart p; summaryTbody := summaryTbody p;
     resultsSection := resultsSection p; savingsSection := savingsSection p;
     savingsMetrics := m; savingsDetails := d;
     recommendBtn := recommendBtn p; fetched := fetched p |}.

Definition set_recommendBtn (b : bool * string) (p : Page) : Page :=
  {| alertBox := alertBox p; categorySelect := categorySelect p;
     currentMaterialSelect := currentMaterialSelect p;
     materialsGrid := materialsGrid p; analyticsGrid := analyticsGrid p;
     comparisonChart := comparisonChart p; summaryTbody := summaryTbody p;
     resultsSection := resultsSection p; savingsSection := savingsSection p;
     savingsMetrics := savingsMetrics p; savingsDetails := savingsDetails p;
     recommendBtn := b; fetched := fetched p |}.

Definition log_request (r : Request) (p : Page) : Page :=
  {| alertBox := alertBox p; categorySelect := categorySelect p;
     currentMaterialSelect := currentMaterialSelect p;
     materialsGrid := materialsGrid p; analyticsGrid := analyticsGrid p;
     comparisonChart := comparisonChart p; summaryTbody := summaryTbody p;
     resultsSection := resultsSection p; savingsSection := savingsSection p;
     savingsMetrics := savingsMetrics p; savingsDetails := savingsDetails p;
     recommendBtn := recommendBtn p; fetched := fetched p ++ [r] |}.

(** ** Effects: the page as state, exceptions and rejected promises *)

Inductive completion (A : Type) : Type :=
| Normal (a : A)
| Throw (message : string).

Arguments Normal {A} a.
Arguments Throw {A} message.

Definition Eff (A : Type) : Type := Page -> completion A * Page.

Definition ret {A : Type} (a : A) : Eff A := fun p => (Normal a, p).

Definition bind {A B : Type} (c : Eff A) (k : A -> Eff B) : Eff B :=
  fun p =>
    match c p with
    | (Normal a, p') => k a p'
    | (Throw message, p') => (Throw message, p')
    end.

Definition throw {A : Type} (message : string) : Eff A :=
  fun p => (Throw message, p).

(** [.catch(err => handler(err.message))] *)
Definition catch {A : Type} (c : Eff A) (handler : string -> Eff A) : Eff A :=
  fun p =>
    match c p with
    | (Normal a, p') => (Normal a, p')
    | (Throw message, p') => handler message p'
    end.

(** [.finally(() => after)] *)
Definition finally {A : Type} (c : Eff A) (after : Eff unit) : Eff A :=
  fun p =>
    match c p with
    | (r, p') =>
        match after p' with
        | (Normal _, p'') => (r, p'')
        | (Throw message, p'') => (Throw message, p'')
        end
    end.

Definition modify (f : Page -> Page) : Eff unit := fun p => (Normal tt, f p).

Notation "x <- c1 ;; c2" := (bind c1 (fun x => c2))
  (at level 61, c1 at next level, right associativity).
Notation "c1 ;; c2" := (bind c1 (fun _ => c2))
  (at level 61, right associativity).

(** The page a computation leaves behind. *)
Definition exec {A : Type} (c : Eff A) (p : Page) : Page := snd (c p).

(** [l.forEach((x, i) => f(x, i))] *)
Fixpoint forEach_from {A : Type} (f : A -> nat -> Eff unit) (i : nat)
  (l : list A) : Eff unit :=
  match l with
  | [] => ret tt
  | x :: xs => f x i ;; forEach_from f (S i) xs
  end.

Definition forEach {A : Type} (f : A -> nat -> Eff unit) (l : list A)
  : Eff unit := forEach_from f 0 l.

(** Reading a property of [undefined] throws a [TypeError]. *)
Definition defined {A : Type} (o : option A) (message : string) : Eff A :=
  match o with
  | Some a => ret a
  | None => throw message
  end.

(** *** The backend

    A reply is either a rejected promise (the transport failed, or the body
    was not JSON) or a decoded object with its [status] and its payload. *)

Inductive Reply (A : Type) : Type :=
| Rejected (message : string)
| Json (status : string) (body : A).

Arguments Rejected {A} message.
Arguments Json {A} status body.

Record Server : Type := {
  api_categories : Reply (list string);
  api_materials : Reply (list string);
  api_recommend : RecommendPayload -> Reply (option (list RecommendationRecord));
  api_compare : ComparePayload -> Reply ComparisonRecord
}.

(** [fetch(...).then(res => res.json())]: the request leaves, then the
    promise settles. *)
Definition fetch {A : Type} (q : Request) (r : Reply A) : Eff (string * A) :=
  modify (log_request q) ;;
  match r with
  | Rejected message => throw message
  | Json status body => ret (status, body)
  end.

(** ** UI helpers *)

(** The button's state and its label (the spinner element before the label
    is markup). *)
Definition setLoading (state : bool) : Eff unit :=
  modify (set_recommendBtn
            (state, if state then "Analyzing..." else "Run Recommendation Engine")).

Definition showAlert (type msg : string) : Eff unit :=
  modify (set_alertBox {| alert_text := msg;
                          alert_display := "block";
                          alert_class := "alert-box " ++ type |}).

(** [err.message || "Something went wrong."] *)
Definition error_text (message : string) : string :=
  if (message =? "")%string then "Something went wrong." else message.

Definition hideAlert : Eff unit :=
  modify (fun p => set_alertBox {| alert_text := "";
                                   alert_display := "none";
                                   alert_class := alert_class (alertBox p) |} p).

Definition resetResults : Eff unit :=
  modify (set_resultsSection "none") ;;
  modify (set_savingsSection "none").

Definition resetUI : Eff unit := hideAlert ;; resetResults.

(** ** Loading the selectors *)

Definition loadCategories (srv : Server) : Eff unit :=
  catch
    (data <- fetch GetCategories (api_categories srv) ;;
     if negb (fst data =? "success")%string then throw "Category load failed"
     else
       forEach (fun cat _ =>
                  modify (fun p => set_categorySelect (categorySelect p ++ [cat]) p))
               (snd data))
    (fun _ => showAlert "warning" "Unable to load product categories.").

Definition loadMaterials (srv : Server) : Eff unit :=
  catch
    (data <- fetch GetMaterials (api_materials srv) ;;
     if negb (fst data =? "success")%string then throw "Material load failed"
     else
       forEach (fun mat _ =>
                  modify (fun p =>
                            set_currentMaterialSelect (currentMaterialSelect p ++ [mat]) p))
               (snd data))
    (fun _ => showAlert "warning" "Unable to load materials list.").

(** ** Rendering the results *)

Definition percent (x : JS.number) : string :=
  JS.toFixed (JS.mul x (JS.of_Z 100)) 1 ++ "%".

Definition rupees (x : JS.number) : string := "₹" ++ JS.toFixed x 2.

Definition kilograms (x : JS.number) : string := JS.toFixed x 4 ++ " kg".

(** The card [displayResults] appends for the record [r] at index [i]. *)
Definition card (r : RecommendationRecord) (i : nat) : Card :=
  {| card_class := "material-card" ++ (if (i =? 0)%nat then " best" else "");
     card_name := material_name r;
     card_suitability := percent (suitability_score r);
     card_cost := rupees (predicted_cost_inr r);
     card_co2 := kilograms (predicted_co2_kg r);
     card_eco := JS.toFixed (eco_score r) 3 |}.

(** The row [buildTable] appends for the record [r] at index [i]. *)
Definition table_row (r : RecommendationRecord) (i : nat) : TableRow :=
  {| row_name := material_name r;
     row_type := material_type r;
     row_suitability := percent (suitability_score r);
     row_cost := rupees (predicted_cost_inr r);
     row_co2 := kilograms (predicted_co2_kg r);
     row_eco := JS.toFixed (eco_score r) 3;
     row_rank := JS.digits (N.of_nat (i + 1)) |}.

Definition renderChart (recs : list RecommendationRecord) : Eff unit :=
  modify (set_comparisonChart
            (Some {| chart_labels := map material_name recs;
                     chart_cost := map predicted_cost_inr recs;
                     chart_co2 := map predicted_co2_kg recs |})).

Definition buildTable (recs : list RecommendationRecord) : Eff unit :=
  modify (set_summaryTbody []) ;;
  forEach (fun r i =>
             modify (fun p => set_summaryTbody (summaryTbody p ++ [table_row r i]) p))
          recs.

Definition analytics (lowest_cost lowest_co2 top : RecommendationRecord)
  : list AnalyticsBox :=
  [ {| box_label := "LOWEST COST";
       box_value := material_name lowest_cost;
       box_sub := rupees (predicted_cost_inr lowest_cost) |};
    {| box_label := "LOWEST CO₂";
       box_value := material_name lowest_co2;
       box_sub := kilograms (predicted_co2_kg lowest_co2) |};
    {| box_label := "BEST OVERALL";
       box_value := material_name top;
       box_sub := "Eco Score: " ++ JS.toFixed (eco_score top) 3 |} ].

(** [recs] is [None] when the reply carries no [recommendations]. *)
Definition displayResults (recs : option (list RecommendationRecord)) : Eff unit :=
  match recs with
  | None | Some [] => showAlert "warning" "No recommendations found."
  | Some recs =>
      modify (set_materialsGrid []) ;;
      forEach (fun r i =>
                 modify (fun p => set_materialsGrid (materialsGrid p ++ [card r i]) p))
              recs ;;
      lowest_cost <- defined (lowestCost recs)
                       "Reduce of empty array with no initial value" ;;
      lowest_co2 <- defined (lowestCO2 recs)
                      "Reduce of empty array with no initial value" ;;
      top <- defined (best recs) "Cannot read properties of undefined" ;;
      modify (set_analyticsGrid (analytics lowest_cost lowest_co2 top)) ;;
      renderChart recs ;;
      buildTable recs ;;
      modify (set_resultsSection "block")
  end.

Definition displaySavings (cmp : ComparisonRecord) : Eff unit :=
  modify (set_savingsSection "block") ;;
  modify (set_savings
            [ {| box_label := "CO₂ REDUCTION";
                 box_value := JS.toFixed (co2_reduction_percent cmp) 1 ++ "%";
                 box_sub := JS.toFixed (co2_savings_kg cmp) 4 ++ " kg saved" |};
              {| box_label := "COST SAVINGS";
                 box_value := rupees (cost_difference_inr cmp);
                 box_sub := "per unit" |};
              {| box_label := "ENVIRONMENTAL IMPACT";
                 box_value := JS.toFixed (recommended_eco_score cmp) 3;
                 box_sub := "eco score" |} ]
            [ {| comparison_class := "comparison-card current";
                 comparison_label := "CURRENT MATERIAL";
                 comparison_value := current_material cmp;
                 comparison_details :=
                   [ "Cost: " ++ rupees (current_cost_inr cmp);
                     "CO₂: " ++ kilograms (current_co2_kg cmp) ] |};
              {| comparison_class := "comparison-card recommended";
                 comparison_label := "RECOMMENDED";
                 comparison_value := recommended_material cmp;
                 comparison_details :=
                   [ "Cost: " ++ rupees (recommended_cost_inr cmp);
                     "CO₂: " ++ kilograms (recommended_co2_kg cmp);
                     "Eco Score: " ++ JS.toFixed (recommended_eco_score cmp) 3 ] |} ]).

(** ** Submitting a request *)

(** The values of the form controls when the button is pressed. *)
Record Form : Type := {
  categorySelect_value : string;
  weightInput_value : string;
  fragilitySelect_value : string;
  budgetInput_value : string;
  currentMaterialSelect_value : string;
  topNSelect_value : string
}.

Section RunRecommendation.

(** [String.prototype.trim], [parseFloat] and [parseInt] (with its radix)
    are taken as given. *)
Variable trim : string -> string.
Variable parseFloat : string -> JS.number.
Variable parseInt : string -> JS.number -> JS.number.

(** [[3, 5, 10].includes(topNRaw) ? topNRaw : 5] *)
Definition selected_topN (topNRaw : JS.number) : JS.number :=
  if JS.includes [JS.of_Z 3; JS.of_Z 5; JS.of_Z 10] topNRaw
  then topNRaw else JS.of_Z 5.

(** The whole handler, the promise chain run to its end on the replies of
    [srv]. *)
Definition runRecommendation (srv : Server) (form : Form) : Eff unit :=
  hideAlert ;;
  resetResults ;;
  let category := trim (categorySelect_value form) in
  let weight := parseFloat (weightInput_value form) in
  let fragility := fragilitySelect_value form in
  let budgetRaw := trim (budgetInput_value form) in
  let currentMaterial := currentMaterialSelect_value form in
  let topNRaw := parseInt (topNSelect_value form) (JS.of_Z 10) in
  if (category =? "")%string then
    showAlert "warning" "Please select a product category."
  else if JS.isNaN weight || JS.le weight (JS.of_Z 0) then
    showAlert "warning" "Please enter a valid product weight."
  else
    let topN := selected_topN topNRaw in
    let payload :=
      {| category := category;
         weight := weight;
         top_n := topN;
         fragility_override := fragility;
         budget_limit :=
           if (budgetRaw =? "")%string then None else Some (parseFloat budgetRaw) |} in
    setLoading true ;;
    finally
      (catch
         (data <- fetch (PostRecommend payload) (api_recommend srv payload) ;;
          if negb (fst data =? "success")%string then throw "Recommendation failed"
          else
            displayResults (snd data) ;;
            if negb (currentMaterial =? "")%string then
              let body := {| compare_category := category;
                             compare_weight := weight;
                             compare_current_material := currentMaterial |} in
              cmp <- fetch (PostCompare body) (api_compare srv body) ;;
              if (fst cmp =? "success")%string then displaySavings (snd cmp)
              else ret tt
            else ret tt)
         (fun message => showAlert "error" (error_text message)))
      (setLoading false).

(** The [payload] object of the recommendation request, as the handler
    builds it before it is serialised. *)
Definition payload_of (form : Form) : RecommendPayload :=
  {| category := trim (categorySelect_value form);
     weight := parseFloat (weightInput_value form);
     top_n := selected_topN (parseInt (topNSelect_value form) (JS.of_Z 10));
     fragility_override := fragilitySelect_value form;
     budget_limit :=
       if (trim (budgetInput_value form) =? "")%string then None
       else Some (parseFloat (trim (budgetInput_value form))) |}.

(** The object of the comparison request, before it is serialised. *)
Definition comparison_of (form : Form) : ComparePayload :=
  {| compare_category := trim (categorySelect_value form);
     compare_weight := parseFloat (weightInput_value form);
     compare_current_material := currentMaterialSelect_value form |}.

(** The validation of the handler lets the form through. *)
Definition valid (form : Form) : bool :=
  negb (trim (categorySelect_value form) =? "")%string
  && negb (JS.isNaN (parseFloat (weightInput_value form))
           || JS.le (parseFloat (weightInput_value form)) (JS.of_Z 0)).

End RunRecommendation.

(** The page before the script has run. *)
Definition blank : Page :=
  {| alertBox := {| alert_text := ""; alert_display := "none";
                    alert_class := "alert-box" |};
     categorySelect := []; currentMaterialSelect := [];
     materialsGrid := []; analyticsGrid := []; comparisonChart := None;
     summaryTbody := []; resultsSection := "none"; savingsSection := "none";
     savingsMetrics := []; savingsDetails := [];
     recommendBtn := (false, "Run Recommendation Engine"); fetched := [] |}.

(** ** Reference definitions *)

(** The reference scan of the specification, in its words: one pass from
    left to right that tracks the running minimum (its position [min_at]
    and its value [min_key]); the comparison is strict, so a tie keeps the
    earlier element.  [i] is the position of the head of [rest]. *)
Fixpoint running_minimum (key : RecommendationRecord -> JS.number)
  (rest : list RecommendationRecord) (i min_at : nat) (min_key : JS.number)
  : nat :=
  match rest with
  | [] => min_at
  | r :: rest' =>
      if JS.lt (key r) min_key
      then running_minimum key rest' (S i) i (key r)
      else running_minimum key rest' (S i) min_at min_key
  end.

Definition first_minimum_index (key : RecommendationRecord -> JS.number)
  (recs : list RecommendationRecord) : option nat :=
  match recs with
  | [] => None
  | r0 :: rest => Some (running_minimum key rest 1 0 (key r0))
  end.

Definition first_minimum (key : RecommendationRecord -> JS.number)
  (recs : list RecommendationRecord) : option RecommendationRecord :=
  match first_minimum_index key recs with
  | None => None
  | Some i => nth_error recs i
  end.

(** The records whose [key] can be ordered: none of them is NaN.  Numbers
    decoded from JSON never are, and the data model asks for more
    ([predicted_cost_inr] and [predicted_co2_kg] at least 0). *)
Definition comparable (key : RecommendationRecord -> JS.number)
  (recs : list RecommendationRecord) : Prop :=
  forall r, In r recs -> JS.isNaN (key r) = false.

(** The shape of the two [reduce] callbacks: the accumulator stays unless
    the next record has a strictly smaller [key].  [cheaper] and [cleaner]
    are its instances at the two metrics. *)
Definition keep_smaller (key : RecommendationRecord -> JS.number)
  (a b : RecommendationRecord) : RecommendationRecord :=
  if JS.lt (key b) (key a) then b else a.

(** A reply that is not a success: the promise is rejected, or the decoded
    [status] is not "success". *)
Definition failed {A : Type} (r : Reply A) : Prop :=
  match r with
  | Rejected _ => True
  | Json status _ => status <> "success"
  end.

(** The alert [showAlert(type, msg)] leaves in the box. *)
Definition alert (type msg : string) : AlertBox :=
  {| alert_text := msg; alert_display := "block";
     alert_class := "alert-box " ++ type |}.

(** Reading a decimal numeral back. *)
Definition read_digits (s : string) : option N :=
  option_map N.of_uint (NilZero.uint_of_string s).

(** A record whose cost is NaN.  No reply decodes to one: JSON has no
    numeral for NaN. *)
Definition unpriced : RecommendationRecord :=
  {| material_name := "Unpriced"; material_type := "Unknown";
     suitability_score := JS.of_Z 0;
     predicted_cost_inr := S754_nan;
     predicted_co2_kg := JS.of_Z 1;
     eco_score := JS.of_Z 0 |}.

(** The records of the specification's example. *)
Definition bamboo : RecommendationRecord :=
  {| material_name := "Bamboo"; material_type := "Natural";
     suitability_score := JS.decimal 876 3;
     predicted_cost_inr := JS.of_Z 10;
     predicted_co2_kg := JS.decimal 5 1;
     eco_score := JS.decimal 9 1 |}.

Definition plastic : RecommendationRecord :=
  {| material_name := "Plastic"; material_type := "Synthetic";
     suitability_score := JS.decimal 5 1;
     predicted_cost_inr := JS.of_Z 5;
     predicted_co2_kg := JS.of_Z 2;
     eco_score := JS.decimal 3 1 |}.

(** The page [displayResults] leaves on a non-empty list. *)
Definition rendered (r0 : RecommendationRecord) (rest : list RecommendationRecord)
  (p : Page) : Page :=
  let recs := r0 :: rest in
  set_resultsSection "block"
    (set_summaryTbody (JS.mapi table_row recs)
       (set_comparisonChart
          (Some {| chart_labels := map material_name recs;
                   chart_cost := map predicted_cost_inr recs;
                   chart_co2 := map predicted_co2_kg recs |})
          (set_analyticsGrid
             (analytics (fold_left cheaper rest r0) (fold_left cleaner rest r0) r0)
             (set_materialsGrid (JS.mapi card recs) p)))).

(** ** Reading a formatted number *)

Definition is_digit (c : ascii) : bool :=
  ((48 <=? nat_of_ascii c) && (nat_of_ascii c <=? 57))%nat.

Fixpoint all_digits (s : string) : bool :=
  match s with
  | EmptyString => true
  | String c r => is_digit c && all_digits r
  end.

(** A non-empty run of digits. *)
Definition numeral (s : string) : bool :=
  negb (s =? "")%string && all_digits s.

(** A numeral without a superfluous zero in front: [0] itself, or digits
    that do not start with [0]. *)
Definition leading_zero (s : string) : bool :=
  match s with
  | EmptyString => false
  | String c _ => Ascii.eqb c "0"
  end.

Definition integral (s : string) : bool :=
  numeral s && ((s =? "0")%string || negb (leading_zero s)).

(** The text before the first point, and the text after it if there is
    one. *)
Fixpoint split_point (s : string) : string * option string :=
  match s with
  | EmptyString => (EmptyString, None)
  | String c r =>
      if Ascii.eqb c "." then (EmptyString, Some r)
      else let (a, b) := split_point r in (String c a, b)
  end.

(** The text after a leading minus sign. *)
Definition unsigned (s : string) : string :=
  match s with
  | EmptyString => s
  | String c r => if Ascii.eqb c "-" then r else s
  end.

(** The number of decimal places of a numeral in fixed notation
    ([-]digits or [-]digits.digits, the digits before the point without a
    superfluous zero); [None] for any other text. *)
Definition decimal_places (s : string) : option nat :=
  match split_point (unsigned s) with
  | (a, None) => if integral a then Some 0%nat else None
  | (a, Some b) => if integral a && numeral b then Some (String.length b) else None
  end.

Fixpoint without_point (s : string) : string :=
  match s with
  | EmptyString => EmptyString
  | String c r => if Ascii.eqb c "." then r else String c (without_point r)
  end.

(** The digits of a numeral in fixed notation, read as one integer: its
    magnitude times [10^f] when it has [f] decimal places. *)
Definition scaled_value (s : string) : option N :=
  read_digits (without_point (unsigned s)).

(** The finite numbers [toFixed] prints in fixed notation: those of
    magnitude below [10^21]. *)
Definition fixed_notation (x : JS.number) : bool :=
  match x with
  | S754_zero _ => true
  | S754_finite _ m e => negb (JS.ge_1e21 m e)
  | _ => false
  end.

(** [n] is the integer closest to the magnitude of [x] times [10^f], and
    the larger one when two are as close:
    [-1 < 2 * (n - m * 2^e * 10^f) <= 1], with the denominators cleared. *)
Definition rounds_to (x : JS.number) (f : nat) (n : Z) : bool :=
  match x with
  | S754_zero _ => n =? 0
  | S754_finite _ m e =>
      let d := 2 ^ Z.max 0 (- e) in
      let gap := 2 * (n * d - Zpos m * 10 ^ Z.of_nat f * 2 ^ Z.max 0 e) in
      (- d <? gap) && (gap <=? d)
  | _ => false
  end.

(** A leading minus sign, and the numbers that get one (a negative zero
    does not). *)
Definition has_minus (s : string) : bool :=
  match s with
  | EmptyString => false
  | String c _ => Ascii.eqb c "-"
  end.

Definition below_zero (x : JS.number) : bool :=
  match x with
  | S754_finite s _ _ => s
  | _ => false
  end.

(** The text [s] shows [x] with [f] decimal places, rounded as [toFixed]
    rounds. *)
Definition shows (x : JS.number) (f : nat) (s : string) : Prop :=
  decimal_places s = Some f
  /\ has_minus s = below_zero x
  /\ exists n, scaled_value s = Some n /\ rounds_to x f (Z.of_N n) = true.

(** The record of the specification's formatting examples. *)
Definition kraft : RecommendationRecord :=
  {| material_name := "Kraft Paper"; material_type := "Paper";
     suitability_score := JS.decimal 876 3;
     predicted_cost_inr := JS.decimal 1995 1;
     predicted_co2_kg := JS.decimal 1234 5;
     eco_score := JS.decimal 5 1 |}.

(** A record that costs [10^21]. *)
Definition gold : RecommendationRecord :=
  {| material_name := "Gold Leaf"; material_type := "Metal";
     suitability_score := JS.decimal 5 1;
     predicted_cost_inr := JS.of_Z (10 ^ 21);
     predicted_co2_kg := JS.of_Z 2;
     eco_score := JS.decimal 1 1 |}.

(** The values the backend accepts for [top_n]. *)
Definition allowed_top_n (x : JS.number) : Prop :=
  x = JS.of_Z 3 \/ x = JS.of_Z 5 \/ x = JS.of_Z 10.

(** A sample session: a backend, a filled form, and stand-ins for the
    platform's parsers on the strings of that form. *)
Definition sample_comparison : ComparisonRecord :=
  {| current_material := "Plastic";
     recommended_material := "Bamboo";
     current_cost_inr := JS.of_Z 5;
     recommended_cost_inr := JS.of_Z 10;
     current_co2_kg := JS.of_Z 2;
     recommended_co2_kg := JS.decimal 5 1;
     cost_difference_inr := JS.of_Z (-5);
     co2_savings_kg := JS.decimal 15 1;
     co2_reduction_percent := JS.of_Z 75;
     recommended_eco_score := JS.decimal 9 1 |}.

Definition sample_server (compare_status : string) : Server :=
  {| api_categories := Json "success" ["Food"; "Electronics"];
     api_materials := Json "success" ["Plastic"; "Glass"];
     api_recommend := fun _ => Json "success" (Some [bamboo; plastic]);
     api_compare := fun _ => Json compare_status sample_comparison |}.

(** A backend with nothing to recommend. *)
Definition empty_server : Server :=
  {| api_categories := Json "success" [];
     api_materials := Json "success" [];
     api_recommend := fun _ => Json "success" (Some []);
     api_compare := fun _ => Json "success" sample_comparison |}.

(** A backend that cannot be reached. *)
Definition offline_server : Server :=
  {| api_categories := Rejected "Failed to fetch";
     api_materials := Rejected "Failed to fetch";
     api_recommend := fun _ => Rejected "Failed to fetch";
     api_compare := fun _ => Rejected "Failed to fetch" |}.

Definition sample_form : Form :=
  {| categorySelect_value := "Food";
     weightInput_value := "1.5";
     fragilitySelect_value := "auto";
     budgetInput_value := "";
     currentMaterialSelect_value := "Plastic";
     topNSelect_value := "7" |}.

(** The same form with no category selected. *)
Definition unselected_form : Form :=
  {| categorySelect_value := "";
     weightInput_value := "1.5";
     fragilitySelect_value := "auto";
     budgetInput_value := "";
     currentMaterialSelect_value := "Plastic";
     topNSelect_value := "7" |}.

(** The same form with a budget that is no number. *)
Definition vague_form : Form :=
  {| categorySelect_value := "Food";
     weightInput_value := "1.5";
     fragilitySelect_value := "auto";
     budgetInput_value := "abc";
     currentMaterialSelect_value := "Plastic";
     topNSelect_value := "7" |}.

Definition sample_trim (s : string) : string := s.

Definition sample_parseFloat (s : string) : JS.number :=
  if (s =? "1.5")%string then JS.decimal 15 1 else S754_nan.

Definition sample_parseInt (s : string) (radix : JS.number) : JS.number :=
  if (s =? "7")%string then JS.of_Z 7 else S754_nan.

(** * Properties *)

(** ** The order of numbers *)

Lemma compare_cont_spec (p q : positive) :
  CompareSpec (p = q) (p < q)%positive (q < p)%positive (Pos.compare_cont Eq p q).
Proof. exact (Pos.compare_spec p q). Qed.

Ltac order_cases :=
  repeat match goal with
    | |- context [ Z.compare ?a ?b ] => destruct (Z.compare_spec a b)
    | |- context [ Pos.compare_cont Eq ?a ?b ] => destruct (compare_cont_spec a b)
    end;
  simpl; try reflexivity; try discriminate; try lia.

Ltac by_float_cases x :=
  destruct x as [[]|[]| |[] ? ?]; simpl in *; try reflexivity; try discriminate.

Lemma le_refl (x : JS.number) : JS.isNaN x = false -> JS.le x x = true.
Proof.
  unfold JS.le, SFleb, SFcompare. by_float_cases x; intros _; order_cases.
Qed.

Lemma lt_le (x y : JS.number) : JS.lt x y = true -> JS.le x y = true.
Proof.
  unfold JS.lt, JS.le, SFltb, SFleb.
  destruct (SFcompare x y) as [[]|]; intros H; try reflexivity; discriminate.
Qed.

Lemma not_lt_le (x y : JS.number) :
  JS.isNaN x = false -> JS.isNaN y = false ->
  JS.lt y x = false -> JS.le x y = true.
Proof.
  unfold JS.lt, JS.le, SFltb, SFleb, SFcompare.
  by_float_cases x; by_float_cases y; intros _ _; order_cases.
Qed.

Lemma le_trans (x y z : JS.number) :
  JS.le x y = true -> JS.le y z = true -> JS.le x z = true.
Proof.
  unfold JS.le, SFleb, SFcompare.
  by_float_cases x; by_float_cases y; by_float_cases z; order_cases.
Qed.

Lemma lt_le_trans (x y z : JS.number) :
  JS.lt x y = true -> JS.le y z = true -> JS.lt x z = true.
Proof.
  unfold JS.lt, JS.le, SFltb, SFleb, SFcompare.
  by_float_cases x; by_float_cases y; by_float_cases z; order_cases.
Qed.

Lemma lt_gt (x y : JS.number) :
  JS.isNaN x = false -> JS.isNaN y = false ->
  JS.le x y = false -> JS.lt y x = true.
Proof.
  unfold JS.lt, JS.le, SFltb, SFleb, SFcompare.
  by_float_cases x; by_float_cases y; intros _ _; order_cases.
Qed.

(** ** The reduce-based selection *)

Section Selection.

Variable key : RecommendationRecord -> JS.number.

Local Abbreviation pick := (keep_smaller key).

Lemma keep_smaller_cases (a b : RecommendationRecord) :
  pick a b = a \/ pick a b = b.
Proof. unfold keep_smaller. destruct (JS.lt (key b) (key a)); auto. Qed.

(** The accumulator is always one of the records seen so far. *)
Lemma fold_keep_smaller_In (l : list RecommendationRecord) :
  forall a, In (fold_left pick l a) (a :: l).
Proof.
  induction l as [|b l IH]; intros a; simpl.
  - now left.
  - specialize (IH (pick a b)).
    destruct (keep_smaller_cases a b) as [K|K]; rewrite K in IH |- *;
      destruct IH as [E|H]; auto.
Qed.

(** The fold and the reference scan walk together: when the scan holds the
    position of the accumulator, it ends on the position of the result. *)
Lemma fold_matches_scan (l : list RecommendationRecord) :
  forall (pre : list RecommendationRecord) (j : nat) (a : RecommendationRecord),
    nth_error pre j = Some a ->
    nth_error (pre ++ l) (running_minimum key l (List.length pre) j (key a))
    = Some (fold_left pick l a).
Proof.
  induction l as [|b l IH]; intros pre j a Hj; simpl.
  - rewrite app_nil_r. exact Hj.
  - replace (pre ++ b :: l)%list with ((pre ++ [b]) ++ l)%list
      by (rewrite <- app_assoc; reflexivity).
    replace (S (List.length pre)) with (List.length (pre ++ [b])%list)
      by (rewrite length_app; simpl; lia).
    unfold keep_smaller at 2.
    destruct (JS.lt (key b) (key a)).
    + apply IH. rewrite nth_error_app2 by lia.
      rewrite Nat.sub_diag. reflexivity.
    + apply IH. rewrite nth_error_app1; [exact Hj|].
      apply nth_error_Some. congruence.
Qed.

(** The invariant of the scan on keys that can be ordered: the running
    minimum is below everything seen and strictly below everything before
    its own position. *)
Lemma scan_invariant (l : list RecommendationRecord) :
  forall (pre : list RecommendationRecord) (j : nat) (a : RecommendationRecord),
    comparable key (pre ++ l) ->
    nth_error pre j = Some a ->
    (forall k r, nth_error pre k = Some r -> JS.le (key a) (key r) = true) ->
    (forall k r, (k < j)%nat -> nth_error pre k = Some r ->
                 JS.lt (key a) (key r) = true) ->
    let i := running_minimum key l (List.length pre) j (key a) in
    let m := fold_left pick l a in
    (forall k r, nth_error (pre ++ l) k = Some r -> JS.le (key m) (key r) = true)
    /\ (forall k r, (k < i)%nat -> nth_error (pre ++ l) k = Some r ->
                    JS.lt (key m) (key r) = true).
Proof.
  induction l as [|b l IH]; intros pre j a Hc Hj Hle Hlt; simpl.
  - rewrite app_nil_r. split; assumption.
  - assert (Hpre : (j < List.length pre)%nat)
      by (apply nth_error_Some; congruence).
    assert (Ha : JS.isNaN (key a) = false)
      by (apply Hc, in_or_app; left; eapply nth_error_In; eauto).
    assert (Hb : JS.isNaN (key b) = false)
      by (apply Hc, in_or_app; right; now left).
    replace (pre ++ b :: l)%list with ((pre ++ [b]) ++ l)%list in *
      by (rewrite <- app_assoc; reflexivity).
    replace (S (List.length pre)) with (List.length (pre ++ [b])%list)
      by (rewrite length_app; simpl; lia).
    destruct (JS.lt (key b) (key a)) eqn:Hba.
    + assert (K : pick a b = b)
        by (unfold keep_smaller; now rewrite Hba).
      rewrite K. apply IH; trivial.
      * rewrite nth_error_app2 by lia. rewrite Nat.sub_diag. reflexivity.
      * intros k r Hk.
        destruct (Nat.lt_ge_cases k (List.length pre)) as [Hin|Hout].
        -- rewrite nth_error_app1 in Hk by exact Hin.
           apply le_trans with (key a); [now apply lt_le | eauto].
        -- rewrite nth_error_app2 in Hk by exact Hout.
           destruct (k - List.length pre)%nat as [|[|n]]; simpl in Hk;
             try discriminate.
           injection Hk as <-. now apply le_refl.
      * intros k r Hk Hr. rewrite nth_error_app1 in Hr by exact Hk.
        apply lt_le_trans with (key a); eauto.
    + assert (K : pick a b = a)
        by (unfold keep_smaller; now rewrite Hba).
      rewrite K. apply IH; trivial.
      * rewrite nth_error_app1 by exact Hpre. exact Hj.
      * intros k r Hk.
        destruct (Nat.lt_ge_cases k (List.length pre)) as [Hin|Hout].
        -- rewrite nth_error_app1 in Hk by exact Hin. eauto.
        -- rewrite nth_error_app2 in Hk by exact Hout.
           destruct (k - List.length pre)%nat as [|[|n]]; simpl in Hk;
             try discriminate.
           injection Hk as <-. now apply not_lt_le.
      * intros k r Hk Hr.
        rewrite nth_error_app1 in Hr by lia. eauto.
Qed.

(** [reduce] with this callback is the reference scan. *)
Lemma reduce_first_minimum (recs : list RecommendationRecord) :
  JS.reduce pick recs = first_minimum key recs.
Proof.
  destruct recs as [|r0 rest]; [reflexivity|].
  unfold first_minimum, first_minimum_index, JS.reduce.
  symmetry. exact (fold_matches_scan rest [r0] 0 r0 eq_refl).
Qed.

(** What the scan returns on keys that can be ordered: a record below all
    the others and strictly below those before it. *)
Lemma first_minimum_least (recs : list RecommendationRecord) (i : nat) :
  comparable key recs ->
  first_minimum_index key recs = Some i ->
  exists m,
    nth_error recs i = Some m
    /\ JS.reduce pick recs = Some m
    /\ (forall k r, nth_error recs k = Some r -> JS.le (key m) (key r) = true)
    /\ (forall k r, (k < i)%nat -> nth_error recs k = Some r ->
                    JS.lt (key m) (key r) = true).
Proof.
  destruct recs as [|r0 rest]; [discriminate|].
  intros Hc Hi. injection Hi as <-.
  exists (fold_left pick rest r0).
  split; [exact (fold_matches_scan rest [r0] 0 r0 eq_refl)|].
  split; [reflexivity|].
  apply (scan_invariant rest [r0] 0 r0); trivial.
  - intros [|[|k]] r Hk; simpl in Hk; try discriminate.
    injection Hk as <-. apply le_refl, Hc. now left.
  - intros k r Hk. lia.
Qed.

End Selection.

Lemma lowestCost_reduce (recs : list RecommendationRecord) :
  lowestCost recs = JS.reduce (keep_smaller predicted_cost_inr) recs.
Proof. reflexivity. Qed.

Lemma lowestCO2_reduce (recs : list RecommendationRecord) :
  lowestCO2 recs = JS.reduce (keep_smaller predicted_co2_kg) recs.
Proof. reflexivity. Qed.

Lemma reduce_nonempty (key : RecommendationRecord -> JS.number)
  (recs : list RecommendationRecord) :
  recs <> [] ->
  exists m, JS.reduce (keep_smaller key) recs = Some m /\ In m recs.
Proof.
  destruct recs as [|r0 rest]; [congruence|]. intros _.
  exists (fold_left (keep_smaller key) rest r0).
  split; [reflexivity | apply fold_keep_smaller_In].
Qed.

Lemma reduce_refines_scan (key : RecommendationRecord -> JS.number)
  (recs : list RecommendationRecord) :
  recs <> [] ->
  exists i m,
    first_minimum_index key recs = Some i
    /\ first_minimum key recs = Some m
    /\ JS.reduce (keep_smaller key) recs = Some m
    /\ (comparable key recs ->
        forall k r, nth_error recs k = Some r ->
          JS.le (key m) (key r) = true
          /\ ((k < i)%nat -> JS.lt (key m) (key r) = true)).
Proof.
  intros Hne.
  destruct (reduce_nonempty key recs Hne) as (m & Hm & _).
  destruct (first_minimum_index key recs) as [i|] eqn:Hi;
    [|destruct recs; [congruence | discriminate]].
  exists i, m. split; [reflexivity|].
  split; [rewrite <- reduce_first_minimum; exact Hm|].
  split; [exact Hm|].
  intros Hc k r Hk.
  destruct (first_minimum_least key recs i Hc Hi) as (m' & _ & Hm' & Hle & Hlt).
  assert (m' = m) by congruence. subst m'. split; eauto.
Qed.

Lemma reduce_least (key : RecommendationRecord -> JS.number)
  (recs : list RecommendationRecord) :
  recs <> [] -> comparable key recs ->
  exists m, JS.reduce (keep_smaller key) recs = Some m
            /\ forall r, In r recs -> JS.le (key m) (key r) = true.
Proof.
  intros Hne Hc.
  destruct (first_minimum_index key recs) as [i|] eqn:Hi.
  - destruct (first_minimum_least key recs i Hc Hi) as (m & _ & Hm & Hle & _).
    exists m. split; [exact Hm|].
    intros r Hr. apply In_nth_error in Hr. destruct Hr as [k Hk]. eauto.
  - destruct recs; [congruence | discriminate].
Qed.

(** C1: for every non-empty list of recommendation records the lowest-cost
    selection of [displayResults] costs no more than any record of the
    list, and independently the lowest-emissions selection emits no more
    than any record of the list.  Each half asks that the metric it
    compares is a number on every record (never NaN), which the data model
    guarantees. *)
Theorem lowest_selections_are_minimal (recs : list RecommendationRecord) :
  recs <> [] ->
  (comparable predicted_cost_inr recs ->
   exists c, lowestCost recs = Some c
             /\ forall r, In r recs ->
                  JS.le (predicted_cost_inr c) (predicted_cost_inr r) = true)
  /\ (comparable predicted_co2_kg recs ->
      exists e, lowestCO2 recs = Some e
                /\ forall r, In r recs ->
                     JS.le (predicted_co2_kg e) (predicted_co2_kg r) = true).
Proof.
  intros Hne. split; intros Hc.
  - rewrite lowestCost_reduce. now apply reduce_least.
  - rewrite lowestCO2_reduce. now apply reduce_least.
Qed.

(** The assumption on the metric cannot be dropped: every comparison with
    NaN is false, so a record without a cost that comes first is kept
    against any other. *)
Remark NaN_is_kept :
  lowestCost [unpriced; plastic] = Some unpriced
  /\ JS.le (predicted_cost_inr unpriced) (predicted_cost_inr plastic) = false.
Proof. split; reflexivity. Qed.

Lemma example_comparable (key : RecommendationRecord -> JS.number) :
  JS.isNaN (key bamboo) = false -> JS.isNaN (key plastic) = false ->
  comparable key [bamboo; plastic].
Proof. intros Hb Hp r [<-|[<-|[]]]; assumption. Qed.

Lemma lowest_selections_are_minimal_witness :
  JS.le (predicted_cost_inr plastic) (predicted_cost_inr bamboo) = true
  /\ JS.le (predicted_co2_kg bamboo) (predicted_co2_kg plastic) = true.
Proof.
  assert (Hne : [bamboo; plastic] <> []) by discriminate.
  destruct (lowest_selections_are_minimal [bamboo; plastic] Hne) as [Hcost Hco2].
  split.
  - destruct Hcost as (c & Hc & Hmin).
    + apply example_comparable; reflexivity.
    + vm_compute in Hc. injection Hc as <-. apply Hmin. now left.
  - destruct Hco2 as (e & He & Hmin).
    + apply example_comparable; reflexivity.
    + vm_compute in He. injection He as <-. apply Hmin. right. now left.
Defined.

(** C2: on every non-empty list the reduce-based selection returns what the
    reference scan returns, for the cost and for the emissions; and where
    the metric is a number on every record, that record is the first
    minimal one: no record has a smaller value and every earlier record has
    a strictly larger one. *)
Theorem reduce_is_first_minimum (recs : list RecommendationRecord) :
  recs <> [] ->
  (exists i c,
      first_minimum_index predicted_cost_inr recs = Some i
      /\ first_minimum predicted_cost_inr recs = Some c
      /\ lowestCost recs = Some c
      /\ (comparable predicted_cost_inr recs ->
          forall k r, nth_error recs k = Some r ->
            JS.le (predicted_cost_inr c) (predicted_cost_inr r) = true
            /\ ((k < i)%nat ->
                JS.lt (predicted_cost_inr c) (predicted_cost_inr r) = true)))
  /\ (exists j e,
         first_minimum_index predicted_co2_kg recs = Some j
         /\ first_minimum predicted_co2_kg recs = Some e
         /\ lowestCO2 recs = Some e
         /\ (comparable predicted_co2_kg recs ->
             forall k r, nth_error recs k = Some r ->
               JS.le (predicted_co2_kg e) (predicted_co2_kg r) = true
               /\ ((k < j)%nat ->
                   JS.lt (predicted_co2_kg e) (predicted_co2_kg r) = true))).
Proof.
  intros Hne. rewrite lowestCost_reduce, lowestCO2_reduce. split.
  - destruct (reduce_refines_scan predicted_cost_inr recs Hne)
      as (i & c & Hi & Hf & Hr & Hmin).
    exists i, c. auto.
  - destruct (reduce_refines_scan predicted_co2_kg recs Hne)
      as (j & e & Hj & Hf & Hr & Hmin).
    exists j, e. auto.
Qed.

Lemma reduce_is_first_minimum_witness :
  first_minimum predicted_cost_inr [bamboo; plastic] = Some plastic
  /\ first_minimum predicted_co2_kg [bamboo; plastic] = Some bamboo
  /\ JS.lt (predicted_cost_inr plastic) (predicted_cost_inr bamboo) = true.
Proof.
  assert (Hne : [bamboo; plastic] <> []) by discriminate.
  destruct (reduce_is_first_minimum [bamboo; plastic] Hne)
    as [(i & c & Hi & Hf & Hc & Hmin) (j & e & Hj & Hg & He & _)].
  vm_compute in Hi. injection Hi as <-.
  vm_compute in Hc. injection Hc as <-.
  vm_compute in He. injection He as <-.
  split; [exact Hf|]. split; [exact Hg|].
  destruct (Hmin (example_comparable predicted_cost_inr eq_refl eq_refl)
              0%nat bamboo eq_refl) as [_ Hlt].
  apply Hlt, Nat.lt_0_1.
Defined.

(** A tie keeps the earlier record, whatever the two values are. *)
Lemma tie_keeps_earlier (key : RecommendationRecord -> JS.number)
  (a b : RecommendationRecord) :
  key a = key b -> JS.reduce (keep_smaller key) [a; b] = Some a.
Proof.
  intros E. simpl. unfold keep_smaller. rewrite E.
  replace (JS.lt (key b) (key b)) with false; [reflexivity|].
  unfold JS.lt, SFltb, SFcompare.
  destruct (key b) as [[]|[]| |[] m e]; try reflexivity; order_cases.
Qed.

(** C10: on every non-empty list the lowest-cost and the lowest-emissions
    selections are records of the list itself. *)
Theorem lowest_selections_are_input_records (recs : list RecommendationRecord) :
  recs <> [] ->
  exists c e,
    lowestCost recs = Some c /\ In c recs
    /\ lowestCO2 recs = Some e /\ In e recs.
Proof.
  intros Hne.
  destruct (reduce_nonempty predicted_cost_inr recs Hne) as (c & Hc & Hin).
  destruct (reduce_nonempty predicted_co2_kg recs Hne) as (e & He & Hin').
  exists c, e. auto.
Qed.

Lemma lowest_selections_are_input_records_witness :
  In plastic [bamboo; plastic] /\ In bamboo [bamboo; plastic].
Proof.
  assert (Hne : [bamboo; plastic] <> []) by discriminate.
  destruct (lowest_selections_are_input_records [bamboo; plastic] Hne)
    as (c & e & Hc & Hin & He & Hin').
  vm_compute in Hc. injection Hc as <-.
  vm_compute in He. injection He as <-.
  split; assumption.
Defined.

(** ** Running the renderers *)

Lemma set_materialsGrid_same (p : Page) : set_materialsGrid (materialsGrid p) p = p.
Proof. destruct p; reflexivity. Qed.

Lemma set_summaryTbody_same (p : Page) : set_summaryTbody (summaryTbody p) p = p.
Proof. destruct p; reflexivity. Qed.

Lemma nth_error_mapi_from {A B : Type} (f : A -> nat -> B) (l : list A) :
  forall (k i : nat),
    nth_error (JS.mapi_from f k l) i
    = option_map (fun x => f x (k + i)%nat) (nth_error l i).
Proof.
  induction l as [|x l IH]; intros k [|i]; simpl; trivial.
  - now rewrite Nat.add_0_r.
  - rewrite IH. now rewrite Nat.add_succ_r.
Qed.

Lemma length_mapi_from {A B : Type} (f : A -> nat -> B) (l : list A) :
  forall k, List.length (JS.mapi_from f k l) = List.length l.
Proof. induction l as [|x l IH]; intros k; simpl; [|rewrite IH]; reflexivity. Qed.

(** The loop of [displayResults] appends the cards in order. *)
Lemma cards_appended (l : list RecommendationRecord) :
  forall (i : nat) (p : Page),
    forEach_from
      (fun r i => modify (fun p => set_materialsGrid (materialsGrid p ++ [card r i]) p))
      i l p
    = (Normal tt, set_materialsGrid (materialsGrid p ++ JS.mapi_from card i l) p).
Proof.
  induction l as [|r l IH]; intros i p; simpl.
  - rewrite app_nil_r, set_materialsGrid_same. reflexivity.
  - unfold bind, modify at 1. rewrite IH. simpl.
    rewrite <- app_assoc. reflexivity.
Qed.

(** The loop of [buildTable] appends the rows in order. *)
Lemma rows_appended (l : list RecommendationRecord) :
  forall (i : nat) (p : Page),
    forEach_from
      (fun r i => modify (fun p => set_summaryTbody (summaryTbody p ++ [table_row r i]) p))
      i l p
    = (Normal tt, set_summaryTbody (summaryTbody p ++ JS.mapi_from table_row i l) p).
Proof.
  induction l as [|r l IH]; intros i p; simpl.
  - rewrite app_nil_r, set_summaryTbody_same. reflexivity.
  - unfold bind, modify at 1. rewrite IH. simpl.
    rewrite <- app_assoc. reflexivity.
Qed.

Lemma buildTable_run (recs : list RecommendationRecord) (p : Page) :
  buildTable recs p = (Normal tt, set_summaryTbody (JS.mapi table_row recs) p).
Proof.
  unfold buildTable, forEach, bind, modify at 1. rewrite rows_appended.
  reflexivity.
Qed.

Lemma displayResults_run (r0 : RecommendationRecord)
  (rest : list RecommendationRecord) (p : Page) :
  displayResults (Some (r0 :: rest)) p = (Normal tt, rendered r0 rest p).
Proof.
  unfold displayResults, forEach.
  unfold bind at 1. unfold modify at 1.
  unfold bind at 1. rewrite cards_appended.
  unfold bind at 1. simpl defined. unfold ret at 1.
  unfold bind at 1. unfold ret at 1.
  unfold bind at 1. unfold ret at 1.
  unfold bind at 1. unfold modify at 1.
  unfold bind at 1. unfold renderChart, modify at 1.
  unfold bind at 1. rewrite buildTable_run.
  unfold modify. reflexivity.
Qed.

(** C3: on every non-empty list the best overall record of
    [displayResults] is the first record of the list, whatever the cost and
    the emissions of the records are: the third analytics box shows its name
    and its eco score, and the first card, and no other, is marked as the
    best. *)
Theorem best_overall_is_first (r0 : RecommendationRecord)
  (rest : list RecommendationRecord) (p : Page) :
  let recs := r0 :: rest in
  let p' := exec (displayResults (Some recs)) p in
  best recs = Some r0
  /\ fst (displayResults (Some recs) p) = Normal tt
  /\ nth_error (analyticsGrid p') 2
     = Some {| box_label := "BEST OVERALL";
               box_value := material_name r0;
               box_sub := "Eco Score: " ++ JS.toFixed (eco_score r0) 3 |}
  /\ (forall i c, nth_error (materialsGrid p') i = Some c ->
        (card_class c = "material-card best" <-> i = 0%nat)).
Proof.
  intros recs p'. subst recs p'. unfold exec.
  rewrite displayResults_run. unfold rendered, JS.mapi. simpl.
  split; [reflexivity|]. split; [reflexivity|]. split; [reflexivity|].
  intros [|i] c Hc; simpl in Hc.
  - injection Hc as <-. split; reflexivity.
  - rewrite nth_error_mapi_from in Hc.
    destruct (nth_error rest i); [|discriminate].
    injection Hc as <-. split; discriminate.
Qed.

Lemma best_overall_is_first_witness :
  best [plastic; bamboo] = Some plastic
  /\ exists c, nth_error (materialsGrid (exec (displayResults (Some [plastic; bamboo]))
                                              blank)) 0 = Some c
               /\ card_name c = "Plastic"
               /\ card_class c = "material-card best".
Proof.
  destruct (best_overall_is_first plastic [bamboo] blank)
    as (Hbest & _ & _ & Hcards).
  split; [exact Hbest|].
  exists (card plastic 0).
  assert (Hc : nth_error (materialsGrid (exec (displayResults (Some [plastic; bamboo]))
                                              blank)) 0 = Some (card plastic 0))
    by reflexivity.
  split; [exact Hc|]. split; [reflexivity|].
  apply (Hcards 0%nat (card plastic 0) Hc). reflexivity.
Defined.

(** C4: when the list passed to [displayResults] is absent or empty, the
    warning "No recommendations found." is shown and nothing else on the
    page changes: no card, no analytics box, no chart and no table row is
    rendered, and the results section is not revealed. *)
Theorem empty_input_is_signalled (recs : option (list RecommendationRecord))
  (p : Page) :
  recs = None \/ recs = Some [] ->
  let p' := exec (displayResults recs) p in
  fst (displayResults recs p) = Normal tt
  /\ p' = set_alertBox {| alert_text := "No recommendations found.";
                          alert_display := "block";
                          alert_class := "alert-box warning" |} p
  /\ materialsGrid p' = materialsGrid p
  /\ analyticsGrid p' = analyticsGrid p
  /\ comparisonChart p' = comparisonChart p
  /\ summaryTbody p' = summaryTbody p
  /\ resultsSection p' = resultsSection p.
Proof.
  intros [-> | ->]; simpl; repeat split.
Qed.

Lemma empty_input_is_signalled_witness :
  alert_text (alertBox (exec (displayResults (Some [])) blank))
  = "No recommendations found."
  /\ alert_text (alertBox (exec (displayResults None) blank))
     = "No recommendations found.".
Proof.
  split.
  - destruct (empty_input_is_signalled (Some []) blank (or_intror eq_refl))
      as (_ & -> & _). reflexivity.
  - destruct (empty_input_is_signalled None blank (or_introl eq_refl))
      as (_ & -> & _). reflexivity.
Defined.

Lemma read_digits_digits (n : N) : read_digits (JS.digits n) = Some n.
Proof.
  unfold read_digits, JS.digits.
  rewrite NilZero.usu.
  - simpl. now rewrite DecimalN.Unsigned.of_to.
  - destruct n as [|q]; simpl; [discriminate|].
    apply DecimalPos.Unsigned.to_uint_nonnil.
Qed.

(** C5: [buildTable] writes one row per record, in the order of the list,
    and the rank shown in the row of the record at position [i] (counted
    from 0) is the numeral of [i + 1]. *)
Theorem table_rank_is_position (recs : list RecommendationRecord) (p : Page) :
  let rows := summaryTbody (exec (buildTable recs) p) in
  List.length rows = List.length recs
  /\ forall i r, nth_error recs i = Some r ->
       exists row,
         nth_error rows i = Some row
         /\ row_name row = material_name r
         /\ row_rank row = JS.digits (N.of_nat (i + 1))
         /\ read_digits (row_rank row) = Some (N.of_nat (i + 1)).
Proof.
  intros rows. subst rows. unfold exec. rewrite buildTable_run. simpl.
  unfold JS.mapi. split; [apply length_mapi_from|].
  intros i r Hi. exists (table_row r i).
  rewrite nth_error_mapi_from, Hi. simpl.
  repeat split. apply read_digits_digits.
Qed.

Lemma table_rank_is_position_witness :
  exists row,
    nth_error (summaryTbody (exec (buildTable [bamboo; plastic]) blank)) 1
    = Some row
    /\ row_name row = "Plastic" /\ row_rank row = "2".
Proof.
  destruct (table_rank_is_position [bamboo; plastic] blank) as [_ H].
  destruct (H 1%nat plastic eq_refl) as (row & Hrow & Hname & Hrank & _).
  exists row. repeat split; assumption.
Defined.

(** ** Submitting a request *)

Lemma lt_not_ge (x y : JS.number) : JS.lt x y = true -> JS.le y x = false.
Proof.
  unfold JS.lt, JS.le, SFltb, SFleb, SFcompare.
  by_float_cases x; by_float_cases y; order_cases.
Qed.

Lemma lt_not_NaN (x y : JS.number) : JS.lt x y = true -> JS.isNaN y = false.
Proof.
  unfold JS.lt, SFltb, SFcompare. by_float_cases x; by_float_cases y.
Qed.

Ltac run_script :=
  cbv beta iota zeta delta
    [runRecommendation bind catch finally modify ret throw fetch showAlert
     hideAlert resetResults setLoading exec fst snd displaySavings].

(** One case split on the replies of the backend or on a test of the
    promise chain. *)
Ltac chain_step :=
  match goal with
  | |- context [ match ?r with Rejected _ => _ | Json _ _ => _ end ] =>
      destruct r as [?|? ?] eqn:?
  | |- context [ negb (?a =? ?b)%string ] =>
      destruct (a =? b)%string eqn:?; cbv beta iota delta [negb]
  | |- context [ if (?a =? ?b)%string then _ else _ ] =>
      destruct (a =? b)%string eqn:?
  | |- context [ displayResults (Some (_ :: _)) _ ] =>
      rewrite displayResults_run
  | |- context [ displayResults (Some []) ] =>
      unfold displayResults, showAlert, modify
  | |- context [ displayResults None ] =>
      unfold displayResults, showAlert, modify
  | |- context [ displayResults ?b ] =>
      is_var b; destruct b as [[|? ?]|]
  end; cbv beta iota.

Ltac split_chain :=
  match goal with
  | |- context [ PostRecommend ?pl ] => set (payload := pl) in *
  end;
  repeat chain_step;
  cbn [fetched alertBox log_request rendered set_resultsSection
       set_summaryTbody set_comparisonChart set_analyticsGrid
       set_materialsGrid set_alertBox set_savingsSection set_savings
       set_recommendBtn].

Section Submission.

Variable trim : string -> string.
Variable parseFloat : string -> JS.number.
Variable parseInt : string -> JS.number -> JS.number.

Local Abbreviation run := (runRecommendation trim parseFloat parseInt).

Local Abbreviation request_body := (payload_of trim parseFloat parseInt).
Local Abbreviation compare_body := (comparison_of trim parseFloat).
Local Abbreviation passes := (valid trim parseFloat).

Lemma valid_true (form : Form) :
  passes form = true ->
  (trim (categorySelect_value form) =? "")%string = false
  /\ JS.isNaN (parseFloat (weightInput_value form)) = false
  /\ JS.le (parseFloat (weightInput_value form)) (JS.of_Z 0) = false.
Proof.
  unfold valid. intros H.
  apply andb_true_iff in H. destruct H as [Hc Hw].
  apply negb_true_iff in Hc. apply negb_true_iff, orb_false_iff in Hw.
  tauto.
Qed.

Lemma valid_false (form : Form) :
  passes form = false ->
  (trim (categorySelect_value form) =? "")%string = true
  \/ ((trim (categorySelect_value form) =? "")%string = false
      /\ (JS.isNaN (parseFloat (weightInput_value form))
          || JS.le (parseFloat (weightInput_value form)) (JS.of_Z 0)) = true).
Proof.
  unfold valid. intros H.
  destruct (trim (categorySelect_value form) =? "")%string; [now left|].
  right. split; [reflexivity|]. simpl in H. now apply negb_false_iff in H.
Qed.

(** A form that fails the validation only gets a warning. *)
Lemma rejected_form (srv : Server) (form : Form) (p : Page) :
  passes form = false ->
  exists msg,
    (msg = "Please select a product category."
     \/ msg = "Please enter a valid product weight.")
    /\ run srv form p
       = (Normal tt,
          set_alertBox (alert "warning" msg)
            (exec (hideAlert ;; resetResults) p)).
Proof.
  intros H. destruct (valid_false form H) as [Hc | [Hc Hw]].
  - exists "Please select a product category.". split; [now left|].
    run_script. rewrite Hc. reflexivity.
  - exists "Please enter a valid product weight.". split; [now right|].
    run_script. rewrite Hc, Hw. reflexivity.
Qed.

(** A form that passes the validation sends the recommendation request,
    and at most the comparison request after it; the handler returns
    normally. *)
Lemma accepted_form (srv : Server) (form : Form) (p : Page) :
  passes form = true ->
  fst (run srv form p) = Normal tt
  /\ (fetched (exec (run srv form) p)
      = (fetched p ++ [PostRecommend (request_body form)])%list
      \/ fetched (exec (run srv form) p)
         = (fetched p ++ [PostRecommend (request_body form);
                          PostCompare (compare_body form)])%list).
Proof.
  intros H. destruct (valid_true form H) as (Hc & Hnan & Hle).
  run_script. rewrite Hc, Hnan, Hle. cbv beta iota delta [orb].
  split_chain; (split; [reflexivity|]);
    rewrite <- ?app_assoc; auto.
Qed.

Lemma reset_keeps_requests (p : Page) :
  fetched (exec (hideAlert ;; resetResults) p) = fetched p.
Proof. reflexivity. Qed.

Lemma rejected_form_requests (srv : Server) (form : Form) (p : Page) :
  passes form = false -> fetched (exec (run srv form) p) = fetched p.
Proof.
  intros H. destruct (rejected_form srv form p H) as (msg & _ & E).
  unfold exec. rewrite E. reflexivity.
Qed.

(** The requests a run adds to the log. *)
Lemma new_request (srv : Server) (form : Form) (p : Page) (q : Request) :
  In q (fetched (exec (run srv form) p)) -> ~ In q (fetched p) ->
  passes form = true
  /\ (q = PostRecommend (request_body form)
      \/ q = PostCompare (compare_body form)).
Proof.
  intros Hin Hold. destruct (passes form) eqn:Hv.
  - split; [reflexivity|].
    destruct (accepted_form srv form p Hv) as [_ [E|E]];
      rewrite E in Hin; apply in_app_or in Hin;
      destruct Hin as [Hin|Hin]; try contradiction;
      simpl in Hin; intuition auto.
  - rewrite (rejected_form_requests srv form p Hv) in Hin. contradiction.
Qed.

End Submission.

(** ** The allowed values of [top_n] *)

Lemma sameValueZero_finite (s : bool) (m : positive) (e : Z) (x : JS.number) :
  JS.sameValueZero (S754_finite s m e) x = true -> x = S754_finite s m e.
Proof.
  unfold JS.sameValueZero, SFeqb, SFcompare. simpl.
  destruct x as [[]|[]| |[] m' e']; destruct s; try discriminate;
    destruct (Z.compare_spec e e'); try discriminate;
    destruct (compare_cont_spec m m'); try discriminate;
    intros _; subst; reflexivity.
Qed.

Lemma selected_topN_spec (x : JS.number) :
  (allowed_top_n x /\ selected_topN x = x)
  \/ (~ allowed_top_n x /\ selected_topN x = JS.of_Z 5).
Proof.
  unfold selected_topN, allowed_top_n.
  destruct (JS.includes [JS.of_Z 3; JS.of_Z 5; JS.of_Z 10] x) eqn:H.
  - left. split; [|reflexivity].
    unfold JS.includes in H. simpl in H.
    repeat (apply orb_true_iff in H; destruct H as [H|H]);
      try discriminate;
      apply sameValueZero_finite in H; auto.
  - right. split; [|reflexivity].
    intros [E | [E | E]]; subst x; vm_compute in H; discriminate.
Qed.

(** C7: every recommendation request [runRecommendation] sends carries a
    [top_n] that is 3, 5 or 10: the parsed selector value when it is one of
    the three, and 5 in its place otherwise, whatever the selector holds and
    however it parses. *)
Theorem top_n_is_3_5_or_10
  (trim : string -> string) (parseFloat : string -> JS.number)
  (parseInt : string -> JS.number -> JS.number)
  (srv : Server) (form : Form) (p : Page) (payload : RecommendPayload) :
  let p' := exec (runRecommendation trim parseFloat parseInt srv form) p in
  let topNRaw := parseInt (topNSelect_value form) (JS.of_Z 10) in
  In (PostRecommend payload) (fetched p') ->
  ~ In (PostRecommend payload) (fetched p) ->
  allowed_top_n (top_n payload)
  /\ (allowed_top_n topNRaw -> top_n payload = topNRaw)
  /\ (~ allowed_top_n topNRaw -> top_n payload = JS.of_Z 5).
Proof.
  intros p' topNRaw Hin Hold.
  destruct (new_request trim parseFloat parseInt srv form p _ Hin Hold)
    as [_ [E|E]]; [|discriminate].
  injection E as ->. simpl. fold topNRaw.
  destruct (selected_topN_spec topNRaw) as [[Ha ->] | [Hn ->]].
  - repeat split; trivial. intros Hn. contradiction.
  - repeat split; trivial.
    + right. now left.
    + intros Ha. contradiction.
Qed.

Lemma top_n_is_3_5_or_10_witness :
  top_n (payload_of sample_trim sample_parseFloat sample_parseInt sample_form)
  = JS.of_Z 5.
Proof.
  set (payload := payload_of sample_trim sample_parseFloat sample_parseInt
                    sample_form).
  assert (Hin : In (PostRecommend payload)
                   (fetched (exec (runRecommendation sample_trim sample_parseFloat
                                     sample_parseInt (sample_server "success")
                                     sample_form) blank)))
    by (vm_compute; left; reflexivity).
  assert (Hold : ~ In (PostRecommend payload) (fetched blank))
    by (intros []).
  destruct (top_n_is_3_5_or_10 _ _ _ _ _ _ _ Hin Hold) as (_ & _ & H).
  apply H. intros [E | [E | E]]; vm_compute in E; discriminate.
Defined.

(** C8: [runRecommendation] sends a request only when the selected category
    is not empty and the parsed weight is a number strictly above 0, and
    then it does send the recommendation request; when the category is
    empty, or the weight is NaN or at most 0, a warning is shown and the
    request log is left as it was. *)
Theorem request_needs_category_and_weight
  (trim : string -> string) (parseFloat : string -> JS.number)
  (parseInt : string -> JS.number -> JS.number)
  (srv : Server) (form : Form) (p : Page) :
  let p' := exec (runRecommendation trim parseFloat parseInt srv form) p in
  let selected := trim (categorySelect_value form) in
  let parsed := parseFloat (weightInput_value form) in
  (selected = "" \/ JS.isNaN parsed = true \/ JS.le parsed (JS.of_Z 0) = true ->
   fetched p' = fetched p
   /\ alert_display (alertBox p') = "block"
   /\ alert_class (alertBox p') = "alert-box warning"
   /\ (alert_text (alertBox p') = "Please select a product category."
       \/ alert_text (alertBox p') = "Please enter a valid product weight."))
  /\ (forall q, In q (fetched p') -> ~ In q (fetched p) ->
        selected <> "" /\ JS.isNaN parsed = false
        /\ JS.lt (JS.of_Z 0) parsed = true)
  /\ (selected <> "" -> JS.lt (JS.of_Z 0) parsed = true ->
      exists payload,
        In (PostRecommend payload) (fetched p')
        /\ category payload = selected
        /\ weight payload = parsed).
Proof.
  intros p' selected parsed. subst p'. split; [|split].
  - intros H.
    assert (Hv : valid trim parseFloat form = false).
    { unfold valid. fold selected parsed.
      destruct H as [-> | [-> | ->]]; simpl;
        rewrite ?orb_true_r, ?andb_false_r; reflexivity. }
    destruct (rejected_form trim parseFloat parseInt srv form p Hv)
      as (msg & Hmsg & E).
    unfold exec at 1 2 3 4 5. rewrite E. simpl.
    repeat split; trivial.
  - intros q Hin Hold.
    destruct (new_request trim parseFloat parseInt srv form p q Hin Hold)
      as [Hv _].
    destruct (valid_true trim parseFloat form Hv) as (Hc & Hnan & Hle).
    fold selected in Hc. fold parsed in Hnan, Hle.
    split; [now apply String.eqb_neq|]. split; [exact Hnan|].
    apply lt_gt; trivial.
  - intros Hc Hw.
    assert (Hv : valid trim parseFloat form = true).
    { unfold valid. fold selected parsed.
      apply String.eqb_neq in Hc. rewrite Hc.
      rewrite (lt_not_NaN _ _ Hw), (lt_not_ge _ _ Hw). reflexivity. }
    exists (payload_of trim parseFloat parseInt form).
    split; [|split; reflexivity].
    destruct (accepted_form trim parseFloat parseInt srv form p Hv)
      as [_ [E|E]]; rewrite E; apply in_or_app; right; now left.
Qed.

Lemma request_needs_category_and_weight_witness :
  (exists payload,
      In (PostRecommend payload)
         (fetched (exec (runRecommendation sample_trim sample_parseFloat
                           sample_parseInt (sample_server "success") sample_form)
                        blank))
      /\ category payload = "Food")
  /\ fetched (exec (runRecommendation sample_trim sample_parseFloat
                      sample_parseInt (sample_server "success") unselected_form)
                   blank) = [].
Proof.
  split.
  - destruct (request_needs_category_and_weight sample_trim sample_parseFloat
                sample_parseInt (sample_server "success") sample_form blank)
      as (_ & _ & H).
    destruct H as (payload & Hin & Hc & _).
    + discriminate.
    + reflexivity.
    + exists payload. split; assumption.
  - destruct (request_needs_category_and_weight sample_trim sample_parseFloat
                sample_parseInt (sample_server "success") unselected_form blank)
      as (H & _).
    destruct H as (E & _).
    + left. reflexivity.
    + exact E.
Defined.

(** ** Failures of the backend *)

Lemma set_categorySelect_same (p : Page) :
  set_categorySelect (categorySelect p) p = p.
Proof. destruct p; reflexivity. Qed.

Lemma set_currentMaterialSelect_same (p : Page) :
  set_currentMaterialSelect (currentMaterialSelect p) p = p.
Proof. destruct p; reflexivity. Qed.

Lemma categories_appended (l : list string) :
  forall (i : nat) (p : Page),
    forEach_from
      (fun cat _ => modify (fun p => set_categorySelect (categorySelect p ++ [cat]) p))
      i l p
    = (Normal tt, set_categorySelect (categorySelect p ++ l) p).
Proof.
  induction l as [|x l IH]; intros i p; simpl.
  - rewrite app_nil_r, set_categorySelect_same. reflexivity.
  - unfold bind, modify at 1. rewrite IH. simpl.
    rewrite <- app_assoc. reflexivity.
Qed.

Lemma materials_appended (l : list string) :
  forall (i : nat) (p : Page),
    forEach_from
      (fun mat _ =>
         modify (fun p =>
                   set_currentMaterialSelect (currentMaterialSelect p ++ [mat]) p))
      i l p
    = (Normal tt, set_currentMaterialSelect (currentMaterialSelect p ++ l) p).
Proof.
  induction l as [|x l IH]; intros i p; simpl.
  - rewrite app_nil_r, set_currentMaterialSelect_same. reflexivity.
  - unfold bind, modify at 1. rewrite IH. simpl.
    rewrite <- app_assoc. reflexivity.
Qed.

Lemma fetch_run {A : Type} (q : Request) (r : Reply A) (p : Page) :
  fetch q r p
  = match r with
    | Rejected message => (Throw message, log_request q p)
    | Json status body => (Normal (status, body), log_request q p)
    end.
Proof. destruct r; reflexivity. Qed.

Lemma loadCategories_returns (srv : Server) (p : Page) :
  fst (loadCategories srv p) = Normal tt.
Proof.
  unfold loadCategories, catch, bind, forEach. rewrite fetch_run.
  destruct (api_categories srv) as [msg|status body]; [reflexivity|].
  cbv beta iota delta [fst snd].
  destruct (status =? "success")%string; cbv beta iota delta [negb].
  - rewrite categories_appended. reflexivity.
  - reflexivity.
Qed.

Lemma loadMaterials_returns (srv : Server) (p : Page) :
  fst (loadMaterials srv p) = Normal tt.
Proof.
  unfold loadMaterials, catch, bind, forEach. rewrite fetch_run.
  destruct (api_materials srv) as [msg|status body]; [reflexivity|].
  cbv beta iota delta [fst snd].
  destruct (status =? "success")%string; cbv beta iota delta [negb].
  - rewrite materials_appended. reflexivity.
  - reflexivity.
Qed.

Lemma loadCategories_failed (srv : Server) (p : Page) :
  failed (api_categories srv) ->
  loadCategories srv p
  = (Normal tt,
     set_alertBox (alert "warning" "Unable to load product categories.")
       (log_request GetCategories p)).
Proof.
  unfold loadCategories, catch, bind, fetch, modify, showAlert.
  destruct (api_categories srv) as [msg|status body]; simpl; [reflexivity|].
  intros H. apply String.eqb_neq in H. rewrite H. reflexivity.
Qed.

Lemma loadMaterials_failed (srv : Server) (p : Page) :
  failed (api_materials srv) ->
  loadMaterials srv p
  = (Normal tt,
     set_alertBox (alert "warning" "Unable to load materials list.")
       (log_request GetMaterials p)).
Proof.
  unfold loadMaterials, catch, bind, fetch, modify, showAlert.
  destruct (api_materials srv) as [msg|status body]; simpl; [reflexivity|].
  intros H. apply String.eqb_neq in H. rewrite H. reflexivity.
Qed.

Lemma runRecommendation_returns
  (trim : string -> string) (parseFloat : string -> JS.number)
  (parseInt : string -> JS.number -> JS.number)
  (srv : Server) (form : Form) (p : Page) :
  fst (runRecommendation trim parseFloat parseInt srv form p) = Normal tt.
Proof.
  destruct (valid trim parseFloat form) eqn:Hv.
  - apply accepted_form, Hv.
  - destruct (rejected_form trim parseFloat parseInt srv form p Hv)
      as (msg & _ & E).
    rewrite E. reflexivity.
Qed.

(** What the handler leaves in the alert box when the recommendation source
    fails, or when the comparison request is rejected. *)
Lemma recommendation_failures
  (trim : string -> string) (parseFloat : string -> JS.number)
  (parseInt : string -> JS.number -> JS.number)
  (srv : Server) (form : Form) (p : Page) :
  let run := runRecommendation trim parseFloat parseInt srv form in
  let payload := payload_of trim parseFloat parseInt form in
  let body := comparison_of trim parseFloat form in
  valid trim parseFloat form = true ->
  (forall msg, api_recommend srv payload = Rejected msg ->
     alertBox (exec run p) = alert "error" (error_text msg))
  /\ (forall status recs,
        api_recommend srv payload = Json status recs -> status <> "success" ->
        alertBox (exec run p) = alert "error" "Recommendation failed")
  /\ (forall recs msg,
        api_recommend srv payload = Json "success" recs ->
        currentMaterialSelect_value form <> "" ->
        api_compare srv body = Rejected msg ->
        alertBox (exec run p) = alert "error" (error_text msg))
  /\ (forall recs status cmp,
        api_recommend srv payload = Json "success" recs ->
        currentMaterialSelect_value form <> "" ->
        api_compare srv body = Json status cmp -> status <> "success" ->
        savingsSection (exec run p) = "none"
        /\ alertBox (exec run p)
           = alertBox (exec (displayResults recs)
                            (exec (hideAlert ;; resetResults) p))).
Proof.
  intros run payload body Hv. subst run payload body.
  destruct (valid_true trim parseFloat form Hv) as (Hc & Hnan & Hle).
  unfold payload_of, comparison_of.
  split; [|split; [|split]].
  - intros msg H. run_script. rewrite Hc, Hnan, Hle.
    cbv beta iota delta [orb]. rewrite H. reflexivity.
  - intros status recs H Hs. apply String.eqb_neq in Hs.
    run_script. rewrite Hc, Hnan, Hle.
    cbv beta iota delta [orb]. rewrite H. cbv beta iota. rewrite Hs.
    reflexivity.
  - intros recs msg H Hm Hcmp. apply String.eqb_neq in Hm.
    run_script. rewrite Hc, Hnan, Hle.
    cbv beta iota delta [orb]. rewrite H. cbv beta iota.
    rewrite String.eqb_refl. cbv beta iota delta [negb].
    rewrite Hm. cbv beta iota.
    destruct recs as [[|r0 rest]|];
      [ unfold displayResults, showAlert, modify
      | rewrite displayResults_run
      | unfold displayResults, showAlert, modify ];
      cbv beta iota; rewrite Hcmp; reflexivity.
  - intros recs status cmp H Hm Hcmp Hs.
    apply String.eqb_neq in Hm. apply String.eqb_neq in Hs.
    run_script. rewrite Hc, Hnan, Hle.
    cbv beta iota delta [orb]. rewrite H. cbv beta iota.
    rewrite String.eqb_refl. cbv beta iota delta [negb].
    rewrite Hm. cbv beta iota.
    destruct recs as [[|r0 rest]|];
      [ unfold displayResults, showAlert, modify
      | rewrite !displayResults_run
      | unfold displayResults, showAlert, modify ];
      cbv beta iota; rewrite Hcmp; cbv beta iota; rewrite Hs;
      split; reflexivity.
Qed.

(** C9, as the code has it: a failure of the category list or of the
    material list (a status other than "success", or a rejected request)
    shows a warning; a failure of the recommendation source, and a rejected
    comparison request, show an alert of type "error" that carries the
    error's message; a comparison that answers with a status other than
    "success" adds no notice and leaves the savings panel hidden; and the
    three entry points always return normally. *)
Theorem upstream_failures_raise_alerts
  (trim : string -> string) (parseFloat : string -> JS.number)
  (parseInt : string -> JS.number -> JS.number)
  (srv : Server) (form : Form) (p : Page) :
  let run := runRecommendation trim parseFloat parseInt srv form in
  let payload := payload_of trim parseFloat parseInt form in
  let body := comparison_of trim parseFloat form in
  (fst (loadCategories srv p) = Normal tt
   /\ fst (loadMaterials srv p) = Normal tt
   /\ fst (run p) = Normal tt)
  /\ (failed (api_categories srv) ->
      alertBox (exec (loadCategories srv) p)
      = alert "warning" "Unable to load product categories."
      /\ categorySelect (exec (loadCategories srv) p) = categorySelect p)
  /\ (failed (api_materials srv) ->
      alertBox (exec (loadMaterials srv) p)
      = alert "warning" "Unable to load materials list."
      /\ currentMaterialSelect (exec (loadMaterials srv) p)
         = currentMaterialSelect p)
  /\ (valid trim parseFloat form = true ->
      (forall msg, api_recommend srv payload = Rejected msg ->
         alertBox (exec run p) = alert "error" (error_text msg))
      /\ (forall status recs,
            api_recommend srv payload = Json status recs ->
            status <> "success" ->
            alertBox (exec run p) = alert "error" "Recommendation failed")
      /\ (forall recs msg,
            api_recommend srv payload = Json "success" recs ->
            currentMaterialSelect_value form <> "" ->
            api_compare srv body = Rejected msg ->
            alertBox (exec run p) = alert "error" (error_text msg))
      /\ (forall recs status cmp,
            api_recommend srv payload = Json "success" recs ->
            currentMaterialSelect_value form <> "" ->
            api_compare srv body = Json status cmp -> status <> "success" ->
            savingsSection (exec run p) = "none"
            /\ alertBox (exec run p)
               = alertBox (exec (displayResults recs)
                                (exec (hideAlert ;; resetResults) p)))).
Proof.
  intros run payload body. split; [|split; [|split]].
  - split; [apply loadCategories_returns|].
    split; [apply loadMaterials_returns | apply runRecommendation_returns].
  - intros H. unfold exec. rewrite (loadCategories_failed srv p H).
    split; reflexivity.
  - intros H. unfold exec. rewrite (loadMaterials_failed srv p H).
    split; reflexivity.
  - apply recommendation_failures.
Qed.

Lemma upstream_failures_raise_alerts_witness :
  alert_text (alertBox (exec (loadCategories offline_server) blank))
  = "Unable to load product categories."
  /\ alertBox (exec (runRecommendation sample_trim sample_parseFloat
                       sample_parseInt offline_server sample_form) blank)
     = alert "error" "Failed to fetch".
Proof.
  destruct (upstream_failures_raise_alerts sample_trim sample_parseFloat
              sample_parseInt offline_server sample_form blank)
    as (_ & Hcat & _ & Hrec).
  split.
  - destruct (Hcat I) as [-> _]. reflexivity.
  - destruct (Hrec eq_refl) as (H & _).
    exact (H "Failed to fetch" eq_refl).
Defined.

(** C9 as stated fails on the comparison source: when it answers with a
    status other than "success", the request has been made and no notice of
    any kind is shown; the savings panel just stays hidden. *)
Lemma comparison_failure_is_silent :
  let body := comparison_of sample_trim sample_parseFloat sample_form in
  let p' := exec (runRecommendation sample_trim sample_parseFloat
                    sample_parseInt (sample_server "error") sample_form)
                 blank in
  failed (api_compare (sample_server "error") body)
  /\ In (PostCompare body) (fetched p')
  /\ alert_display (alertBox p') = "none"
  /\ alert_text (alertBox p') = ""
  /\ savingsSection p' = "none".
Proof.
  split; [discriminate|].
  split; [vm_compute; right; left; reflexivity|].
  repeat split; vm_compute; reflexivity.
Qed.

(** ** Formatting with [toFixed] *)

Lemma length_append (a b : string) :
  String.length (a ++ b) = (String.length a + String.length b)%nat.
Proof. induction a as [|c a IH]; simpl; [|rewrite IH]; reflexivity. Qed.

Lemma all_digits_append (a b : string) :
  all_digits (a ++ b) = all_digits a && all_digits b.
Proof.
  induction a as [|c a IH]; simpl; [reflexivity|].
  rewrite IH. apply andb_assoc.
Qed.

Lemma length_zeros (k : nat) : String.length (JS.zeros k) = k.
Proof. induction k as [|k IH]; simpl; [|rewrite IH]; reflexivity. Qed.

Lemma all_digits_zeros (k : nat) : all_digits (JS.zeros k) = true.
Proof. induction k as [|k IH]; simpl; trivial. Qed.

Lemma all_digits_uint (d : Decimal.uint) :
  all_digits (NilEmpty.string_of_uint d) = true.
Proof. induction d; simpl; trivial. Qed.

Lemma to_uint_nonnil (n : N) : N.to_uint n <> Decimal.Nil.
Proof.
  destruct n as [|q]; simpl; [discriminate|].
  apply DecimalPos.Unsigned.to_uint_nonnil.
Qed.

Lemma digits_unfold (n : N) :
  JS.digits n = NilEmpty.string_of_uint (N.to_uint n).
Proof.
  unfold JS.digits, NilZero.string_of_uint.
  pose proof (to_uint_nonnil n) as H.
  destruct (N.to_uint n); [contradiction | reflexivity ..].
Qed.

Lemma all_digits_digits (n : N) : all_digits (JS.digits n) = true.
Proof. rewrite digits_unfold. apply all_digits_uint. Qed.

Lemma digits_nonempty (n : N) : (1 <= String.length (JS.digits n))%nat.
Proof.
  rewrite digits_unfold. pose proof (to_uint_nonnil n) as H.
  destruct (N.to_uint n); [contradiction|simpl; lia ..].
Qed.

Lemma all_digits_substring (s : string) :
  forall i j, all_digits s = true -> all_digits (substring i j s) = true.
Proof.
  induction s as [|c s IH]; intros [|i] [|j] H; simpl; trivial.
  - simpl in H. apply andb_true_iff in H. destruct H as [Hc Hs].
    rewrite Hc. simpl. now apply IH.
  - simpl in H. apply andb_true_iff in H. now apply IH.
  - simpl in H. apply andb_true_iff in H. now apply IH.
Qed.

Lemma length_substring (s : string) :
  forall i j, (i + j <= String.length s)%nat ->
              String.length (substring i j s) = j.
Proof.
  induction s as [|c s IH]; intros [|i] [|j] H; simpl in *;
    try reflexivity; try lia.
  - rewrite IH by lia. reflexivity.
  - apply IH. lia.
  - apply IH. lia.
Qed.

Lemma substring_all (s : string) : substring 0 (String.length s) s = s.
Proof. induction s as [|c s IH]; simpl; [|rewrite IH]; reflexivity. Qed.

Lemma substring_split (s : string) :
  forall i, (i <= String.length s)%nat ->
            substring 0 i s ++ substring i (String.length s - i) s = s.
Proof.
  induction s as [|c s IH]; intros [|i] H; simpl in *; try reflexivity;
    try lia.
  - f_equal. apply substring_all.
  - f_equal. apply IH. lia.
Qed.

Lemma digit_not_point (c : ascii) : is_digit c = true -> Ascii.eqb c "." = false.
Proof.
  intros H. destruct (Ascii.eqb_spec c "."); [subst; discriminate | reflexivity].
Qed.

Lemma digit_not_minus (c : ascii) : is_digit c = true -> Ascii.eqb c "-" = false.
Proof.
  intros H. destruct (Ascii.eqb_spec c "-"); [subst; discriminate | reflexivity].
Qed.

Lemma split_point_digits (a : string) :
  all_digits a = true -> split_point a = (a, None).
Proof.
  induction a as [|c a IH]; simpl; [reflexivity|].
  intros H. apply andb_true_iff in H. destruct H as [Hc Ha].
  rewrite (digit_not_point c Hc), (IH Ha). reflexivity.
Qed.

Lemma split_point_at (a b : string) :
  all_digits a = true -> split_point (a ++ String "." b) = (a, Some b).
Proof.
  induction a as [|c a IH]; simpl; [reflexivity|].
  intros H. apply andb_true_iff in H. destruct H as [Hc Ha].
  rewrite (digit_not_point c Hc), (IH Ha). reflexivity.
Qed.

Lemma without_point_digits (a : string) :
  all_digits a = true -> without_point a = a.
Proof.
  induction a as [|c a IH]; simpl; [reflexivity|].
  intros H. apply andb_true_iff in H. destruct H as [Hc Ha].
  rewrite (digit_not_point c Hc), (IH Ha). reflexivity.
Qed.

Lemma without_point_at (a b : string) :
  all_digits a = true -> without_point (a ++ String "." b) = a ++ b.
Proof.
  induction a as [|c a IH]; simpl; [reflexivity|].
  intros H. apply andb_true_iff in H. destruct H as [Hc Ha].
  rewrite (digit_not_point c Hc), (IH Ha). reflexivity.
Qed.

Lemma unsigned_digits (s : string) :
  all_digits s = true -> unsigned s = s.
Proof.
  destruct s as [|c s]; simpl; [reflexivity|].
  intros H. apply andb_true_iff in H. destruct H as [Hc _].
  now rewrite (digit_not_minus c Hc).
Qed.

Lemma numeral_intro (s : string) :
  (1 <= String.length s)%nat -> all_digits s = true -> numeral s = true.
Proof.
  unfold numeral. intros Hl ->. destruct s; simpl in *; [lia | reflexivity].
Qed.

(** Leading zeros do not change what a numeral reads as. *)
Lemma read_padded (k : nat) (n : N) :
  read_digits (JS.zeros k ++ JS.digits n) = Some n.
Proof.
  assert (H : exists d, NilEmpty.uint_of_string (JS.zeros k ++ JS.digits n) = Some d
                        /\ N.of_uint d = n).
  { induction k as [|k (d & Hd & Hn)]; simpl.
    - exists (N.to_uint n). rewrite digits_unfold, NilEmpty.usu.
      split; [reflexivity | apply DecimalN.Unsigned.of_to].
    - exists (Decimal.D0 d). rewrite Hd. split; [reflexivity | exact Hn]. }
  destruct H as (d & Hd & Hn). unfold read_digits, NilZero.uint_of_string.
  destruct (JS.zeros k ++ JS.digits n) eqn:E.
  - exfalso. apply (f_equal String.length) in E.
    rewrite length_append in E. pose proof (digits_nonempty n). simpl in E. lia.
  - rewrite Hd. simpl. now rewrite Hn.
Qed.


(** A decimal numeral in normal form is [0] or starts with another digit. *)
Lemma nzhead_head (d : Decimal.uint) :
  leading_zero (NilEmpty.string_of_uint (Decimal.nzhead d)) = false.
Proof. induction d; simpl; trivial. Qed.

Lemma to_uint_normal (n : N) : N.to_uint n = Decimal.unorm (N.to_uint n).
Proof.
  rewrite <- DecimalN.Unsigned.to_of, DecimalN.Unsigned.of_to. reflexivity.
Qed.

Lemma digits_integral (n : N) : integral (JS.digits n) = true.
Proof.
  unfold integral.
  rewrite numeral_intro by (apply digits_nonempty || apply all_digits_digits).
  rewrite digits_unfold, to_uint_normal. unfold Decimal.unorm.
  pose proof (nzhead_head (N.to_uint n)) as H.
  destruct (Decimal.nzhead (N.to_uint n)); try reflexivity;
    simpl in H; try discriminate; simpl; now rewrite ?orb_true_r.
Qed.

Lemma substring_0_0 (s : string) : substring 0 0 s = EmptyString.
Proof. destruct s; reflexivity. Qed.

(** A non-empty prefix of such a numeral that is longer than one digit is
    one too. *)
Lemma prefix_integral (s : string) (i : nat) :
  (1 <= i)%nat -> integral s = true -> (2 <= String.length s)%nat ->
  integral (substring 0 i s) = true.
Proof.
  unfold integral. intros Hi H Hl.
  apply andb_true_iff in H. destruct H as [Hn Hz].
  unfold numeral in Hn. apply andb_true_iff in Hn. destruct Hn as [_ Hd].
  destruct s as [|c [|c' s]]; simpl in Hl; try lia.
  destruct i as [|i]; [lia|].
  assert (Hc : Ascii.eqb c "0" = false).
  { apply orb_true_iff in Hz. destruct Hz as [Hz|Hz].
    - apply String.eqb_eq in Hz. discriminate.
    - simpl in Hz. now apply negb_true_iff in Hz. }
  apply andb_true_iff. split.
  - apply numeral_intro; [simpl; lia | now apply all_digits_substring].
  - apply orb_true_iff. right. simpl. now rewrite Hc.
Qed.

(** The shape of what steps 11.b and 11.c build: a bare numeral when there
    are no decimals, and otherwise a numeral, a point and [f] digits, made of
    the digits of [n] after some leading zeros. *)
Lemma fixed_shape (n : Z) (f : nat) :
  (f = 0%nat /\ JS.fixed n f = JS.digits (Z.to_N n))
  \/ (exists a b j,
         JS.fixed n f = a ++ String "." b
         /\ all_digits a = true /\ (1 <= String.length a)%nat
         /\ all_digits b = true /\ String.length b = f /\ (1 <= f)%nat
         /\ a ++ b = JS.zeros j ++ JS.digits (Z.to_N n)
         /\ integral a = true).
Proof.
  destruct f as [|f]; [left; split; reflexivity | right].
  unfold JS.fixed.
  set (m := JS.digits (Z.to_N n)).
  set (k := String.length m).
  set (j := if (k <=? S f)%nat then (S f + 1 - k)%nat else 0%nat).
  assert (Em : (if (k <=? S f)%nat then JS.zeros (S f + 1 - k) ++ m else m)
               = JS.zeros j ++ m).
  { subst j. destruct (k <=? S f)%nat; reflexivity. }
  rewrite Em. set (m' := JS.zeros j ++ m).
  assert (Hd : all_digits m' = true).
  { subst m'. rewrite all_digits_append, all_digits_zeros. apply all_digits_digits. }
  assert (Hk : (S f + 1 <= String.length m')%nat).
  { subst m' j. rewrite length_append, length_zeros. fold k.
    destruct (Nat.leb_spec k (S f)); lia. }
  exists (substring 0 (String.length m' - S f) m'),
         (substring (String.length m' - S f) (S f) m'), j.
  split; [reflexivity|].
  split; [now apply all_digits_substring|].
  split; [rewrite length_substring; lia|].
  split; [now apply all_digits_substring|].
  split; [apply length_substring; lia|].
  split; [lia|].
  split.
  { pose proof (substring_split m' (String.length m' - S f)) as E.
    replace (String.length m' - (String.length m' - S f))%nat with (S f) in E
      by lia.
    apply E. lia. }
  subst m' j. destruct (Nat.leb_spec k (S f)) as [Hle|Hgt].
  - rewrite length_append, length_zeros. fold k.
    replace (S f + 1 - k + k - S f)%nat with 1%nat by lia.
    pose proof (digits_nonempty (Z.to_N n)) as Hn. fold m in Hn. fold k in Hn.
    destruct (S f + 1 - k)%nat as [|j'] eqn:Ej; [lia|].
    simpl. now rewrite substring_0_0.
  - simpl JS.zeros. simpl append. fold k.
    apply prefix_integral; [lia | apply digits_integral | fold m k; lia].
Qed.

Lemma fixed_unsigned (n : Z) (f : nat) : unsigned (JS.fixed n f) = JS.fixed n f.
Proof.
  destruct (fixed_shape n f) as [[_ ->] | (a & b & j & -> & Ha & Hl & _)].
  - apply unsigned_digits, all_digits_digits.
  - destruct a as [|c a]; simpl in *; [lia|].
    apply andb_true_iff in Ha. destruct Ha as [Hc _].
    now rewrite (digit_not_minus c Hc).
Qed.

Lemma fixed_has_no_minus (n : Z) (f : nat) : has_minus (JS.fixed n f) = false.
Proof.
  destruct (fixed_shape n f) as [[_ ->] | (a & b & j & -> & Ha & Hl & _)].
  - pose proof (all_digits_digits (Z.to_N n)) as Hd.
    destruct (JS.digits (Z.to_N n)) as [|c t]; [reflexivity|].
    simpl in *. apply andb_true_iff in Hd. destruct Hd as [Hc _].
    now apply digit_not_minus.
  - destruct a as [|c a]; simpl in *; [lia|].
    apply andb_true_iff in Ha. destruct Ha as [Hc _].
    now apply digit_not_minus.
Qed.

Lemma fixed_places (n : Z) (f : nat) : decimal_places (JS.fixed n f) = Some f.
Proof.
  unfold decimal_places. rewrite fixed_unsigned.
  destruct (fixed_shape n f)
    as [[-> ->] | (a & b & j & -> & Ha & Hla & Hb & Hlb & Hf & _ & Hi)].
  - rewrite split_point_digits by apply all_digits_digits.
    now rewrite digits_integral.
  - rewrite split_point_at by exact Ha.
    rewrite Hi, numeral_intro by (trivial; lia). simpl. now rewrite Hlb.
Qed.

Lemma fixed_value (n : Z) (f : nat) :
  scaled_value (JS.fixed n f) = Some (Z.to_N n).
Proof.
  unfold scaled_value. rewrite fixed_unsigned.
  destruct (fixed_shape n f)
    as [[_ ->] | (a & b & j & -> & Ha & _ & _ & _ & _ & E & _)].
  - rewrite without_point_digits by apply all_digits_digits.
    apply (read_padded 0).
  - rewrite without_point_at by exact Ha. rewrite E. apply read_padded.
Qed.

Lemma nearest_nonneg (m : positive) (e : Z) (f : nat) : 0 <= JS.nearest m e f.
Proof.
  unfold JS.nearest.
  assert (Hs : 0 <= Zpos m * 10 ^ Z.of_nat f)
    by (apply Z.mul_nonneg_nonneg; [lia | apply Z.pow_nonneg; lia]).
  destruct (Z.leb_spec 0 e).
  - apply Z.mul_nonneg_nonneg; [exact Hs | apply Z.pow_nonneg; lia].
  - assert (0 < 2 ^ (- e)) by (apply Z.pow_pos_nonneg; lia).
    apply Z.div_pos; lia.
Qed.

(** The integer [toFixed] prints is the closest one, the larger of the two
    in the half-way case. *)
Lemma nearest_rounds (s : bool) (m : positive) (e : Z) (f : nat) :
  rounds_to (S754_finite s m e) f (JS.nearest m e f) = true.
Proof.
  unfold rounds_to, JS.nearest. cbv zeta.
  apply andb_true_iff. rewrite Z.ltb_lt, Z.leb_le.
  set (scaled := Zpos m * 10 ^ Z.of_nat f).
  destruct (Z.leb_spec 0 e) as [He|He].
  - rewrite (Z.max_l 0 (- e)), (Z.max_r 0 e) by lia.
    rewrite Z.pow_0_r, Z.mul_1_r, Z.sub_diag. simpl. lia.
  - rewrite (Z.max_r 0 (- e)), (Z.max_l 0 e) by lia.
    rewrite Z.pow_0_r, Z.mul_1_r.
    set (d := 2 ^ (- e)).
    assert (Hd : 0 < d) by (apply Z.pow_pos_nonneg; lia).
    pose proof (Z.div_mod (2 * scaled + d) (2 * d) ltac:(lia)) as E.
    pose proof (Z.mod_pos_bound (2 * scaled + d) (2 * d) ltac:(lia)) as B.
    set (q := (2 * scaled + d) / (2 * d)) in *.
    set (r := (2 * scaled + d) mod (2 * d)) in *.
    nia.
Qed.

(** [toFixed] in its fixed-notation range: the text has [f] decimal places
    and its digits are a closest integer to the magnitude times [10^f]. *)
Lemma toFixed_shows (x : JS.number) (f : nat) :
  fixed_notation x = true -> shows x f (JS.toFixed x f).
Proof.
  unfold shows, JS.toFixed.
  destruct x as [s|s| |s m e]; simpl; try discriminate; intros H.
  - split; [apply fixed_places|]. split; [apply fixed_has_no_minus|].
    exists 0%N. split; [apply (fixed_value 0)|reflexivity].
  - apply negb_true_iff in H. rewrite H.
    assert (U : unsigned ((if s then "-" else "") ++ JS.fixed (JS.nearest m e f) f)
                = JS.fixed (JS.nearest m e f) f).
    { destruct s; simpl; [reflexivity | apply fixed_unsigned]. }
    split; [|split].
    + unfold decimal_places. rewrite U.
      pose proof (fixed_places (JS.nearest m e f) f) as P.
      unfold decimal_places in P. now rewrite fixed_unsigned in P.
    + destruct s; simpl; [reflexivity | apply fixed_has_no_minus].
    + exists (Z.to_N (JS.nearest m e f)). split.
      * unfold scaled_value. rewrite U.
        pose proof (fixed_value (JS.nearest m e f) f) as P.
        unfold scaled_value in P. now rewrite fixed_unsigned in P.
      * rewrite Z2N.id by apply nearest_nonneg.
        exact (nearest_rounds s m e f).
Qed.

(** Half-way between two integers the larger one is shown and the smaller
    one is not accepted; a numeral with a zero too many in front is no
    numeral in fixed notation. *)
Example half_way_goes_up :
  JS.toFixed (JS.decimal 25 1) 0 = "3"
  /\ rounds_to (JS.decimal 25 1) 0 3 = true
  /\ rounds_to (JS.decimal 25 1) 0 2 = false
  /\ decimal_places "007.50" = None.
Proof. repeat split; vm_compute; reflexivity. Qed.

(** *** Outside the fixed-notation range *)

Lemma all_digits_strip_zeros (s : string) :
  all_digits s = true -> all_digits (JS.strip_zeros s) = true.
Proof.
  induction s as [|c s IH]; simpl; [reflexivity|].
  intros H. apply andb_true_iff in H. destruct H as [Hc Hs].
  specialize (IH Hs).
  destruct (JS.strip_zeros s) as [|c' r].
  - destruct (Ascii.eqb c "0"); simpl; [reflexivity | now rewrite Hc].
  - simpl in *. now rewrite Hc.
Qed.

Lemma decimal_places_signed (b : bool) (t : string) :
  has_minus t = false ->
  decimal_places ((if b then "-" else "") ++ t) = decimal_places t.
Proof.
  intros H. assert (U : unsigned t = t).
  { destruct t as [|c t]; simpl in *; [reflexivity | now rewrite H]. }
  unfold decimal_places. rewrite U. destruct b; simpl; [reflexivity|].
  now rewrite U.
Qed.

(** The digits, the letter and the exponent that follow the first digit in
    exponent notation hold no point and are no run of digits. *)
Lemma exponent_tail (r x : string) :
  all_digits r = true -> all_digits x = true ->
  split_point (r ++ "e+" ++ x) = (r ++ "e+" ++ x, None)
  /\ all_digits (r ++ "e+" ++ x) = false.
Proof.
  intros Hr Hx. set (t := "e+" ++ x).
  assert (Ht : split_point t = (t, None))
    by (subst t; simpl; now rewrite (split_point_digits x Hx)).
  assert (Hn : all_digits t = false) by reflexivity.
  clearbody t. split.
  - induction r as [|c r IH]; simpl; [exact Ht|].
    simpl in Hr. apply andb_true_iff in Hr. destruct Hr as [Hc Hr].
    now rewrite (digit_not_point c Hc), (IH Hr).
  - now rewrite all_digits_append, Hr, Hn.
Qed.

(** A digit followed by such a text, with or without a point between them,
    is no numeral in fixed notation. *)
Lemma no_numeral (c0 : ascii) (t : string) :
  is_digit c0 = true -> split_point t = (t, None) -> all_digits t = false ->
  decimal_places (String c0 t) = None
  /\ decimal_places (String c0 (String "." t)) = None.
Proof.
  intros Hc Hsplit Hnot. unfold decimal_places, unsigned.
  rewrite (digit_not_minus c0 Hc). cbn [split_point].
  rewrite (digit_not_point c0 Hc), Hsplit. split.
  - unfold integral, numeral. cbn [all_digits]. rewrite Hnot, Hc. reflexivity.
  - rewrite Ascii.eqb_refl.
    assert (Hn : numeral t = false)
      by (unfold numeral; rewrite Hnot; apply andb_false_r).
    now rewrite Hn, andb_false_r.
Qed.

(** Exponent notation never has the decimal places asked for. *)
Lemma exponential_places (c : Z) (f : nat) :
  has_minus (JS.exponential c) = false
  /\ decimal_places (JS.exponential c) <> Some (S f).
Proof.
  unfold JS.exponential.
  pose proof (all_digits_strip_zeros _ (all_digits_digits (Z.to_N c))) as Hd.
  set (x := JS.digits (N.of_nat (String.length (JS.digits (Z.to_N c)) - 1))).
  assert (Hx : all_digits x = true) by apply all_digits_digits.
  destruct (JS.strip_zeros (JS.digits (Z.to_N c))) as [|c0 [|c1 r]].
  - split; [reflexivity | discriminate].
  - simpl in Hd. rewrite andb_true_r in Hd.
    split; [simpl; now apply digit_not_minus|].
    destruct (exponent_tail "" x eq_refl Hx) as [Hs Hn].
    assert (E : decimal_places (String c0 ("e+" ++ x)) = None)
      by exact (proj1 (no_numeral c0 _ Hd Hs Hn)).
    rewrite E. discriminate.
  - simpl in Hd. apply andb_true_iff in Hd. destruct Hd as [Hc0 Hr].
    split; [simpl; now apply digit_not_minus|].
    destruct (exponent_tail (String c1 r) x Hr Hx) as [Hs Hn].
    assert (E : decimal_places (String c0 ("." ++ String c1 r ++ "e+" ++ x)) = None)
      by exact (proj2 (no_numeral c0 _ Hc0 Hs Hn)).
    rewrite E. discriminate.
Qed.

(** Outside its fixed-notation range [toFixed] does not give the decimal
    places it is asked for: it prints "NaN", "Infinity" or "-Infinity", or
    switches to exponent notation from [10^21] on. *)
Lemma toFixed_out_of_range (x : JS.number) (f : nat) :
  fixed_notation x = false -> (1 <= f)%nat ->
  decimal_places (JS.toFixed x f) <> Some f.
Proof.
  intros H Hf. destruct f as [|f]; [lia|]. unfold JS.toFixed.
  destruct x as [s|s| |s m e]; simpl in H.
  - discriminate H.
  - destruct s; vm_compute; discriminate.
  - vm_compute. discriminate.
  - apply negb_false_iff in H. rewrite H. unfold JS.toString_large.
    match goal with
    | |- context [JS.exponential ?c] =>
        destruct (exponential_places c f) as [Hm Hp];
        rewrite (decimal_places_signed s _ Hm); exact Hp
    end.
Qed.

(** C6, as the code has it: for every rendered record, each metric that
    [toFixed] prints in fixed notation (a finite number of magnitude below
    [10^21]) is shown correctly rounded with its number of decimal places:
    the suitability as a percentage with one, the cost with two, the
    emissions with four and the eco score with three; any other metric
    (of magnitude [10^21] or more, infinite, or NaN) is not shown with that
    number of decimal places; and the four examples of the specification
    come out as written. *)
Theorem metrics_are_formatted (r : RecommendationRecord) (i : nat) :
  let row := table_row r i in
  let c := card r i in
  let pct := JS.mul (suitability_score r) (JS.of_Z 100) in
  (fixed_notation pct = true ->
   exists s, row_suitability row = s ++ "%" /\ card_suitability c = s ++ "%"
             /\ shows pct 1 s)
  /\ (fixed_notation (predicted_cost_inr r) = true ->
      exists s, row_cost row = "₹" ++ s /\ card_cost c = "₹" ++ s
                /\ shows (predicted_cost_inr r) 2 s)
  /\ (fixed_notation (predicted_co2_kg r) = true ->
      exists s, row_co2 row = s ++ " kg" /\ card_co2 c = s ++ " kg"
                /\ shows (predicted_co2_kg r) 4 s)
  /\ (fixed_notation (eco_score r) = true ->
      card_eco c = row_eco row /\ shows (eco_score r) 3 (row_eco row))
  /\ percent (JS.decimal 876 3) = "87.6%"
  /\ JS.toFixed (JS.decimal 1995 1) 2 = "199.50"
  /\ JS.toFixed (JS.decimal 1234 5) 4 = "0.0123"
  /\ JS.toFixed (JS.decimal 5 1) 3 = "0.500"
  /\ (fixed_notation pct = false ->
      exists s, row_suitability row = s ++ "%" /\ card_suitability c = s ++ "%"
                /\ decimal_places s <> Some 1%nat)
  /\ (fixed_notation (predicted_cost_inr r) = false ->
      exists s, row_cost row = "₹" ++ s /\ card_cost c = "₹" ++ s
                /\ decimal_places s <> Some 2%nat)
  /\ (fixed_notation (predicted_co2_kg r) = false ->
      exists s, row_co2 row = s ++ " kg" /\ card_co2 c = s ++ " kg"
                /\ decimal_places s <> Some 4%nat)
  /\ (fixed_notation (eco_score r) = false ->
      card_eco c = row_eco row /\ decimal_places (row_eco row) <> Some 3%nat)
  /\ JS.toFixed (JS.of_Z (10 ^ 21)) 2 = "1e+21"
  /\ JS.toFixed (S754_infinity false) 2 = "Infinity"
  /\ JS.toFixed S754_nan 2 = "NaN".
Proof.
  intros row c pct. subst row c pct. simpl.
  split; [|split; [|split; [|split]]].
  - intros H. eexists. split; [reflexivity|]. split; [reflexivity|].
    now apply toFixed_shows.
  - intros H. eexists. split; [reflexivity|]. split; [reflexivity|].
    now apply toFixed_shows.
  - intros H. eexists. split; [reflexivity|]. split; [reflexivity|].
    now apply toFixed_shows.
  - intros H. split; [reflexivity | now apply toFixed_shows].
  - split; [vm_compute; reflexivity|]. split; [vm_compute; reflexivity|].
    split; [vm_compute; reflexivity|]. split; [vm_compute; reflexivity|].
    split; [|split; [|split; [|split]]].
    + intros H. eexists. split; [reflexivity|]. split; [reflexivity|].
      apply toFixed_out_of_range; [exact H | lia].
    + intros H. eexists. split; [reflexivity|]. split; [reflexivity|].
      apply toFixed_out_of_range; [exact H | lia].
    + intros H. eexists. split; [reflexivity|]. split; [reflexivity|].
      apply toFixed_out_of_range; [exact H | lia].
    + intros H. split; [reflexivity|].
      apply toFixed_out_of_range; [exact H | lia].
    + repeat split; vm_compute; reflexivity.
Qed.

Lemma metrics_are_formatted_witness :
  table_row kraft 0
  = {| row_name := "Kraft Paper"; row_type := "Paper";
       row_suitability := "87.6%"; row_cost := "₹199.50";
       row_co2 := "0.0123 kg"; row_eco := "0.500"; row_rank := "1" |}
  /\ (exists s, row_cost (table_row kraft 0) = "₹" ++ s
                /\ shows (predicted_cost_inr kraft) 2 s)
  /\ shows (eco_score kraft) 3 "0.500"
  /\ (exists s, row_cost (table_row gold 0) = "₹" ++ s
                /\ decimal_places s <> Some 2%nat).
Proof.
  destruct (metrics_are_formatted kraft 0) as (_ & Hcost & _ & Heco & _).
  destruct (metrics_are_formatted gold 0)
    as (_ & _ & _ & _ & _ & _ & _ & _ & _ & Hgold & _).
  split; [vm_compute; reflexivity|]. split; [|split].
  - destruct (Hcost eq_refl) as (s & Hrow & _ & Hs).
    exists s. split; assumption.
  - destruct (Heco eq_refl) as [_ Hs]. exact Hs.
  - destruct (Hgold eq_refl) as (s & Hrow & _ & Hs).
    exists s. split; assumption.
Defined.

(** C6 as stated fails on a record of the data model that costs [10^21]:
    its cost is printed in exponent notation, with no decimal place. *)
Lemma huge_cost_has_no_decimals :
  JS.le (JS.of_Z 0) (predicted_cost_inr gold) = true
  /\ row_cost (table_row gold 0) = "₹1e+21"
  /\ card_cost (card gold 0) = "₹1e+21"
  /\ decimal_places (JS.toFixed (predicted_cost_inr gold) 2) = None.
Proof. repeat split; vm_compute; reflexivity. Qed.


(** * Further properties of the script *)

(** ** The analytics boxes *)

(** The analytics grid of a rendered list, in terms of the selections. *)
Lemma analyticsGrid_rendered (r0 : RecommendationRecord)
  (rest : list RecommendationRecord) (p : Page) :
  analyticsGrid (exec (displayResults (Some (r0 :: rest))) p)
  = analytics (fold_left cheaper rest r0) (fold_left cleaner rest r0) r0.
Proof. unfold exec. rewrite displayResults_run. reflexivity. Qed.

(** The accumulator never moves when no later record is strictly smaller
    than the first one. *)
Lemma fold_keeps_leader (key : RecommendationRecord -> JS.number)
  (r0 : RecommendationRecord) (rest : list RecommendationRecord) :
  (forall r, In r rest -> JS.lt (key r) (key r0) = false) ->
  fold_left (keep_smaller key) rest r0 = r0.
Proof.
  induction rest as [|b rest IH]; intros H; simpl; [reflexivity|].
  unfold keep_smaller at 2. rewrite (H b (or_introl eq_refl)).
  apply IH. intros r Hr. apply H. now right.
Qed.

(** When no later record is strictly cheaper or strictly cleaner than the
    first one (a list sorted by both metrics, or a list of one record), the
    three analytics boxes all show the first record. *)
Theorem leader_fills_all_boxes (r0 : RecommendationRecord)
  (rest : list RecommendationRecord) (p : Page) :
  (forall r, In r rest ->
     JS.lt (predicted_cost_inr r) (predicted_cost_inr r0) = false) ->
  (forall r, In r rest ->
     JS.lt (predicted_co2_kg r) (predicted_co2_kg r0) = false) ->
  lowestCost (r0 :: rest) = Some r0
  /\ lowestCO2 (r0 :: rest) = Some r0
  /\ map box_value (analyticsGrid (exec (displayResults (Some (r0 :: rest))) p))
     = [material_name r0; material_name r0; material_name r0].
Proof.
  intros Hcost Hco2.
  pose proof (fold_keeps_leader predicted_cost_inr r0 rest Hcost) as Ec.
  pose proof (fold_keeps_leader predicted_co2_kg r0 rest Hco2) as Ee.
  split; [simpl; f_equal; exact Ec|].
  split; [simpl; f_equal; exact Ee|].
  rewrite analyticsGrid_rendered.
  change (fold_left cheaper rest r0)
    with (fold_left (keep_smaller predicted_cost_inr) rest r0).
  change (fold_left cleaner rest r0)
    with (fold_left (keep_smaller predicted_co2_kg) rest r0).
  rewrite Ec, Ee. reflexivity.
Qed.

Lemma leader_fills_all_boxes_witness :
  map box_value
    (analyticsGrid (exec (displayResults (Some [plastic; gold])) blank))
  = ["Plastic"; "Plastic"; "Plastic"].
Proof.
  apply (leader_fills_all_boxes plastic [gold] blank).
  - intros r [<-|[]]. reflexivity.
  - intros r [<-|[]]. reflexivity.
Defined.

(** Two numbers that are below each other print alike. *)
Lemma toFixed_of_equal (x y : JS.number) (f : nat) :
  JS.le x y = true -> JS.le y x = true -> JS.toFixed x f = JS.toFixed y f.
Proof.
  unfold JS.le, SFleb, SFcompare.
  destruct x as [[]|[]| |[] mx ex]; destruct y as [[]|[]| |[] my ey];
    try discriminate; try reflexivity;
    destruct (Z.compare_spec ex ey); try discriminate;
    destruct (Z.compare_spec ey ex); try discriminate; try lia;
    destruct (compare_cont_spec mx my); try discriminate;
    destruct (compare_cont_spec my mx); try discriminate; try lia;
    intros _ _; subst; reflexivity.
Qed.

Lemma comparable_permutation (key : RecommendationRecord -> JS.number)
  (recs recs' : list RecommendationRecord) :
  Permutation recs recs' -> comparable key recs -> comparable key recs'.
Proof.
  intros HP Hc r Hr. apply Hc.
  apply Permutation_in with recs'; [now apply Permutation_sym | exact Hr].
Qed.

(** The smallest value does not depend on the order of the records, even
    when the record that carries it does. *)
Lemma least_key_of_permutation (key : RecommendationRecord -> JS.number)
  (recs recs' : list RecommendationRecord) (f : nat) :
  recs <> [] -> Permutation recs recs' -> comparable key recs ->
  exists m m',
    JS.reduce (keep_smaller key) recs = Some m
    /\ JS.reduce (keep_smaller key) recs' = Some m'
    /\ JS.toFixed (key m) f = JS.toFixed (key m') f.
Proof.
  intros Hne HP Hc.
  assert (Hne' : recs' <> []).
  { intros ->. apply Permutation_sym, Permutation_nil in HP. contradiction. }
  destruct (reduce_least key recs Hne Hc) as (m & Hm & Hmin).
  destruct (reduce_least key recs' Hne' (comparable_permutation key _ _ HP Hc))
    as (m' & Hm' & Hmin').
  destruct (reduce_nonempty key recs Hne) as (m1 & Hm1 & Hin).
  destruct (reduce_nonempty key recs' Hne') as (m1' & Hm1' & Hin').
  assert (m1 = m) by congruence. assert (m1' = m') by congruence. subst m1 m1'.
  exists m, m'. split; [exact Hm|]. split; [exact Hm'|].
  apply toFixed_of_equal.
  - apply Hmin. apply Permutation_in with recs'; [now apply Permutation_sym|exact Hin'].
  - apply Hmin'. apply Permutation_in with recs; assumption.
Qed.

(** The amounts under LOWEST COST and LOWEST CO₂ are the same for every
    order in which the backend may return the same records, whatever page
    they are rendered on. *)
Theorem lowest_amounts_ignore_order (recs recs' : list RecommendationRecord)
  (p p' : Page) :
  recs <> [] -> Permutation recs recs' ->
  comparable predicted_cost_inr recs -> comparable predicted_co2_kg recs ->
  map box_sub (firstn 2 (analyticsGrid (exec (displayResults (Some recs)) p)))
  = map box_sub (firstn 2 (analyticsGrid (exec (displayResults (Some recs')) p'))).
Proof.
  intros Hne HP Hcost Hco2.
  destruct (least_key_of_permutation predicted_cost_inr recs recs' 2 Hne HP Hcost)
    as (c & c' & Hc & Hc' & Ec).
  destruct (least_key_of_permutation predicted_co2_kg recs recs' 4 Hne HP Hco2)
    as (e & e' & He & He' & Ee).
  destruct recs as [|r0 rest]; [congruence|].
  destruct recs' as [|r0' rest']; [discriminate|].
  rewrite !analyticsGrid_rendered. simpl in Hc, Hc', He, He'.
  injection Hc as Hc. injection Hc' as Hc'.
  injection He as He. injection He' as He'.
  change (fold_left cheaper rest r0)
    with (fold_left (keep_smaller predicted_cost_inr) rest r0).
  change (fold_left cheaper rest' r0')
    with (fold_left (keep_smaller predicted_cost_inr) rest' r0').
  change (fold_left cleaner rest r0)
    with (fold_left (keep_smaller predicted_co2_kg) rest r0).
  change (fold_left cleaner rest' r0')
    with (fold_left (keep_smaller predicted_co2_kg) rest' r0').
  rewrite Hc, Hc', He, He'. simpl. unfold rupees, kilograms.
  rewrite Ec, Ee. reflexivity.
Qed.

Lemma lowest_amounts_ignore_order_witness :
  map box_sub (firstn 2 (analyticsGrid
                           (exec (displayResults (Some [bamboo; plastic])) blank)))
  = map box_sub (firstn 2 (analyticsGrid
                             (exec (displayResults (Some [plastic; bamboo])) blank))).
Proof.
  apply lowest_amounts_ignore_order.
  - discriminate.
  - apply perm_swap.
  - apply example_comparable; reflexivity.
  - apply example_comparable; reflexivity.
Defined.

(** ** Rendering *)

(** [displayResults] clears what it fills: rendering a list over an earlier
    rendering leaves the page that rendering it alone leaves (last write
    wins). *)
Theorem displayResults_overwrites (r1 r2 : RecommendationRecord)
  (rest1 rest2 : list RecommendationRecord) (p : Page) :
  exec (displayResults (Some (r2 :: rest2)))
       (exec (displayResults (Some (r1 :: rest1))) p)
  = exec (displayResults (Some (r2 :: rest2))) p.
Proof.
  unfold exec. rewrite !displayResults_run. reflexivity.
Qed.

(** The cards, the chart and the table of a rendered list are aligned: each
    has one entry per record, in the order of the list, and the card and the
    row of a record carry the same texts. *)
Theorem views_are_aligned (r0 : RecommendationRecord)
  (rest : list RecommendationRecord) (p : Page) :
  let recs := r0 :: rest in
  let p' := exec (displayResults (Some recs)) p in
  List.length (materialsGrid p') = List.length recs
  /\ List.length (summaryTbody p') = List.length recs
  /\ forall i r, nth_error recs i = Some r ->
       exists c row chart,
         nth_error (materialsGrid p') i = Some c
         /\ nth_error (summaryTbody p') i = Some row
         /\ comparisonChart p' = Some chart
         /\ nth_error (chart_labels chart) i = Some (material_name r)
         /\ nth_error (chart_cost chart) i = Some (predicted_cost_inr r)
         /\ nth_error (chart_co2 chart) i = Some (predicted_co2_kg r)
         /\ card_name c = material_name r /\ row_name row = material_name r
         /\ card_suitability c = row_suitability row
         /\ card_cost c = row_cost row
         /\ card_co2 c = row_co2 row
         /\ card_eco c = row_eco row.
Proof.
  intros recs p'. subst p' recs. unfold exec. rewrite displayResults_run.
  unfold rendered, JS.mapi.
  cbn [materialsGrid summaryTbody comparisonChart set_resultsSection
       set_summaryTbody set_comparisonChart set_analyticsGrid
       set_materialsGrid snd].
  rewrite !length_mapi_from. split; [reflexivity|]. split; [reflexivity|].
  intros i r Hi.
  exists (card r i), (table_row r i).
  eexists. rewrite !nth_error_mapi_from, Hi.
  split; [reflexivity|]. split; [reflexivity|]. split; [reflexivity|].
  cbn [chart_labels chart_cost chart_co2].
  rewrite !nth_error_map, Hi. repeat split.
Qed.

Lemma views_are_aligned_witness :
  exists c row,
    nth_error (materialsGrid (exec (displayResults (Some [bamboo; plastic])) blank)) 1
    = Some c
    /\ nth_error (summaryTbody (exec (displayResults (Some [bamboo; plastic])) blank)) 1
       = Some row
    /\ card_name c = "Plastic" /\ card_cost c = row_cost row.
Proof.
  destruct (views_are_aligned bamboo [plastic] blank) as (_ & _ & H).
  destruct (H 1%nat plastic eq_refl)
    as (c & row & chart & Hc & Hrow & _ & _ & _ & _ & Hn & _ & _ & Hcost & _).
  exists c, row. repeat split; assumption.
Defined.

(** Whether it renders a list or only warns, [displayResults] sends nothing
    and leaves the selectors, the savings panel and the button as they
    are. *)
Theorem displayResults_is_contained (recs : option (list RecommendationRecord))
  (p : Page) :
  let p' := exec (displayResults recs) p in
  fetched p' = fetched p
  /\ categorySelect p' = categorySelect p
  /\ currentMaterialSelect p' = currentMaterialSelect p
  /\ savingsSection p' = savingsSection p
  /\ savingsMetrics p' = savingsMetrics p
  /\ savingsDetails p' = savingsDetails p
  /\ recommendBtn p' = recommendBtn p.
Proof.
  intros p'. subst p'. unfold exec.
  destruct recs as [[|r0 rest]|].
  - repeat split.
  - rewrite displayResults_run. repeat split.
  - repeat split.
Qed.

(** ** Loading the selectors *)

Lemma loadCategories_success (srv : Server) (cats : list string) (p : Page) :
  api_categories srv = Json "success" cats ->
  loadCategories srv p
  = (Normal tt,
     set_categorySelect (categorySelect p ++ cats) (log_request GetCategories p)).
Proof.
  intros H. unfold loadCategories, catch, bind, forEach. rewrite fetch_run, H.
  cbv beta iota delta [fst snd]. rewrite String.eqb_refl.
  cbv beta iota delta [negb]. rewrite categories_appended. reflexivity.
Qed.

Lemma loadMaterials_success (srv : Server) (mats : list string) (p : Page) :
  api_materials srv = Json "success" mats ->
  loadMaterials srv p
  = (Normal tt,
     set_currentMaterialSelect (currentMaterialSelect p ++ mats)
       (log_request GetMaterials p)).
Proof.
  intros H. unfold loadMaterials, catch, bind, forEach. rewrite fetch_run, H.
  cbv beta iota delta [fst snd]. rewrite String.eqb_refl.
  cbv beta iota delta [negb]. rewrite materials_appended. reflexivity.
Qed.

(** A successful [loadCategories] appends the categories of the reply, in
    their order, after the options the selector already has, and shows no
    alert; it does not clear the selector first, so loading twice lists
    every category twice. *)
Theorem loadCategories_appends (srv : Server) (cats : list string) (p : Page) :
  api_categories srv = Json "success" cats ->
  let p' := exec (loadCategories srv) p in
  categorySelect p' = (categorySelect p ++ cats)%list
  /\ alertBox p' = alertBox p
  /\ currentMaterialSelect p' = currentMaterialSelect p
  /\ fetched p' = (fetched p ++ [GetCategories])%list
  /\ categorySelect (exec (loadCategories srv) p')
     = (categorySelect p ++ cats ++ cats)%list.
Proof.
  intros H p'. subst p'. unfold exec.
  rewrite !(loadCategories_success srv cats _ H). simpl.
  rewrite <- app_assoc. repeat split.
Qed.

Lemma loadCategories_appends_witness :
  categorySelect (exec (loadCategories (sample_server "success")) blank)
  = ["Food"; "Electronics"].
Proof.
  destruct (loadCategories_appends (sample_server "success")
              ["Food"; "Electronics"] blank eq_refl) as (H & _).
  exact H.
Defined.

(** A successful [loadMaterials] does the same on the selector of the
    current material. *)
Theorem loadMaterials_appends (srv : Server) (mats : list string) (p : Page) :
  api_materials srv = Json "success" mats ->
  let p' := exec (loadMaterials srv) p in
  currentMaterialSelect p' = (currentMaterialSelect p ++ mats)%list
  /\ alertBox p' = alertBox p
  /\ categorySelect p' = categorySelect p
  /\ fetched p' = (fetched p ++ [GetMaterials])%list
  /\ currentMaterialSelect (exec (loadMaterials srv) p')
     = (currentMaterialSelect p ++ mats ++ mats)%list.
Proof.
  intros H p'. subst p'. unfold exec.
  rewrite !(loadMaterials_success srv mats _ H). simpl.
  rewrite <- app_assoc. repeat split.
Qed.

Lemma loadMaterials_appends_witness :
  currentMaterialSelect (exec (loadMaterials (sample_server "success")) blank)
  = ["Plastic"; "Glass"].
Proof.
  destruct (loadMaterials_appends (sample_server "success")
              ["Plastic"; "Glass"] blank eq_refl) as (H & _).
  exact H.
Defined.

(** ** The outcome of a submission *)

(** Reads one area of the page off the outcome of a run. *)
Ltac read_page :=
  unfold exec; rewrite ?displayResults_run;
  cbv beta iota zeta delta
    [displayResults displaySavings setLoading hideAlert resetResults showAlert
     bind modify fst snd rendered];
  cbn [alertBox categorySelect currentMaterialSelect materialsGrid
       analyticsGrid comparisonChart summaryTbody resultsSection
       savingsSection savingsMetrics savingsDetails recommendBtn fetched
       log_request set_alertBox set_categorySelect set_currentMaterialSelect
       set_materialsGrid set_analyticsGrid set_comparisonChart
       set_summaryTbody set_resultsSection set_savingsSection set_savings
       set_recommendBtn].

Section Outcome.

Variable trim : string -> string.
Variable parseFloat : string -> JS.number.
Variable parseInt : string -> JS.number -> JS.number.
Variable srv : Server.
Variable form : Form.

Local Abbreviation run := (runRecommendation trim parseFloat parseInt srv form).
Local Abbreviation payload := (payload_of trim parseFloat parseInt form).
Local Abbreviation body := (comparison_of trim parseFloat form).
Local Abbreviation passes := (valid trim parseFloat form).
Local Abbreviation released :=
  (set_recommendBtn (false, "Run Recommendation Engine")).

(** The page when the recommendation request leaves. *)
Local Abbreviation sent p :=
  (log_request (PostRecommend payload)
     (exec (setLoading true) (exec (hideAlert ;; resetResults) p))).

(** The page an accepted form leaves, reply by reply. *)
Lemma accepted_run (p : Page) :
  passes = true ->
  exec run p
  = match api_recommend srv payload with
    | Rejected msg => released (set_alertBox (alert "error" (error_text msg)) (sent p))
    | Json status recs =>
        if (status =? "success")%string then
          let shown := exec (displayResults recs) (sent p) in
          if (currentMaterialSelect_value form =? "")%string then released shown
          else
            match api_compare srv body with
            | Rejected msg =>
                released (set_alertBox (alert "error" (error_text msg))
                            (log_request (PostCompare body) shown))
            | Json status' cmp =>
                if (status' =? "success")%string
                then released (exec (displaySavings cmp)
                                 (log_request (PostCompare body) shown))
                else released (log_request (PostCompare body) shown)
            end
        else released (set_alertBox (alert "error" "Recommendation failed") (sent p))
    end.
Proof.
  intros H. destruct (valid_true trim parseFloat form H) as (Hc & Hnan & Hle).
  unfold payload_of, comparison_of.
  run_script. rewrite Hc, Hnan, Hle. cbv beta iota delta [orb].
  destruct (api_recommend srv _) as [msg|status recs]; [reflexivity|].
  cbv beta iota.
  destruct (status =? "success")%string; cbv beta iota delta [negb];
    [|reflexivity].
  destruct (currentMaterialSelect_value form =? "")%string.
  - destruct recs as [[|r0 rest]|];
      [ unfold displayResults, showAlert, modify
      | rewrite !displayResults_run
      | unfold displayResults, showAlert, modify ]; reflexivity.
  - destruct recs as [[|r0 rest]|];
      [ unfold displayResults, showAlert, modify
      | rewrite !displayResults_run
      | unfold displayResults, showAlert, modify ];
      cbv beta iota;
      (destruct (api_compare srv _) as [msg|status' cmp]; [reflexivity|]);
      cbv beta iota; destruct (status' =? "success")%string; reflexivity.
Qed.

Lemma rejected_run (p : Page) :
  passes = false ->
  exists msg,
    exec run p = set_alertBox (alert "warning" msg)
                   (exec (hideAlert ;; resetResults) p).
Proof.
  intros H. destruct (rejected_form trim parseFloat parseInt srv form p H)
    as (msg & _ & E).
  exists msg. unfold exec at 1. now rewrite E.
Qed.

(** The results section is revealed exactly when the form passes the
    validation and the recommendation source answers "success" with at
    least one record; in every other case it ends hidden, whatever the page
    showed before. *)
Theorem results_shown_iff (p : Page) :
  (resultsSection (exec run p) = "block"
   <-> passes = true
       /\ exists r rest,
            api_recommend srv payload = Json "success" (Some (r :: rest)))
  /\ (resultsSection (exec run p) = "block"
      \/ resultsSection (exec run p) = "none").
Proof.
  destruct passes eqn:Hv.
  - rewrite (accepted_run p Hv).
    destruct (api_recommend srv payload) as [msg|status recs].
    { read_page. split; [|now right].
      split; [discriminate | intros (_ & r & rest & E); discriminate]. }
    destruct (String.eqb_spec status "success") as [->|Hs].
    + cbv zeta.
      assert (Hshown :
                (resultsSection (exec (displayResults recs) (sent p)) = "block"
                 <-> exists r rest, recs = Some (r :: rest))
                /\ (resultsSection (exec (displayResults recs) (sent p)) = "block"
                    \/ resultsSection (exec (displayResults recs) (sent p)) = "none")).
      { destruct recs as [[|r0 rest]|]; read_page.
        - split; [|now right].
          split; [discriminate | intros (r & rest & E); discriminate].
        - split; [|now left]. split; [eauto | reflexivity].
        - split; [|now right].
          split; [discriminate | intros (r & rest & E); discriminate]. }
      destruct Hshown as [Hiff Hcases].
      assert (Hgoal :
                forall page,
                  resultsSection page
                  = resultsSection (exec (displayResults recs) (sent p)) ->
                  (resultsSection page = "block"
                   <-> true = true
                       /\ exists r rest,
                            @Json (option (list RecommendationRecord)) "success" recs
                            = Json "success" (Some (r :: rest)))
                  /\ (resultsSection page = "block" \/ resultsSection page = "none")).
      { intros page ->. split; [|exact Hcases]. rewrite Hiff. split.
        - intros (r & rest & ->). split; [reflexivity|]. eauto.
        - intros (_ & r & rest & E). injection E as ->. eauto. }
      destruct (currentMaterialSelect_value form =? "")%string;
        [apply Hgoal; reflexivity|].
      destruct (api_compare srv body) as [msg|status' cmp];
        [apply Hgoal; reflexivity|].
      destruct (status' =? "success")%string; apply Hgoal; reflexivity.
    + read_page. split; [|now right].
      split; [discriminate|].
      intros (_ & r & rest & E). injection E as E _. contradiction.
  - destruct (rejected_run p Hv) as (msg & ->). read_page.
    split; [|now right]. split; [discriminate | intros [E _]; discriminate].
Qed.

(** The savings panel is revealed exactly when the form passes the
    validation, the recommendation source answers "success" (with any list,
    even an empty one), a current material is selected and the comparison
    source answers "success". *)
Theorem savings_shown_iff (p : Page) :
  savingsSection (exec run p) = "block"
  <-> passes = true
      /\ (exists recs, api_recommend srv payload = Json "success" recs)
      /\ currentMaterialSelect_value form <> ""
      /\ exists cmp, api_compare srv body = Json "success" cmp.
Proof.
  destruct passes eqn:Hv.
  - rewrite (accepted_run p Hv).
    destruct (api_recommend srv payload) as [msg|status recs].
    { read_page. split; [discriminate|].
      intros (_ & (recs & E) & _); discriminate. }
    destruct (String.eqb_spec status "success") as [->|Hs].
    + cbv zeta.
      destruct (String.eqb_spec (currentMaterialSelect_value form) "")
        as [Hm|Hm].
      { destruct recs as [[|r0 rest]|]; read_page;
          (split; [discriminate | intros (_ & _ & Hn & _); contradiction]). }
      destruct (api_compare srv body) as [msg|status' cmp].
      { destruct recs as [[|r0 rest]|]; read_page;
          (split; [discriminate | intros (_ & _ & _ & cmp & E); discriminate]). }
      destruct (String.eqb_spec status' "success") as [->|Hs'].
      * destruct recs as [[|r0 rest]|]; read_page;
          (split; [intros _; repeat split; eauto | reflexivity]).
      * destruct recs as [[|r0 rest]|]; read_page;
          (split; [discriminate|];
           intros (_ & _ & _ & cmp' & E); injection E as E _; contradiction).
    + read_page. split; [discriminate|].
      intros (_ & (recs' & E) & _). injection E as E _. contradiction.
  - destruct (rejected_run p Hv) as (msg & ->). read_page.
    split; [discriminate | intros [E _]; discriminate].
Qed.

(** The requests of a submission: none when the form is turned down; the
    recommendation request alone when its reply fails or no current material
    is selected; and otherwise the recommendation request followed by the
    comparison request, which therefore also leaves when the list of
    recommendations is empty. *)
Theorem requests_of_a_submission (p : Page) :
  (passes = false -> fetched (exec run p) = fetched p)
  /\ (passes = true ->
      failed (api_recommend srv payload)
      \/ currentMaterialSelect_value form = "" ->
      fetched (exec run p) = (fetched p ++ [PostRecommend payload])%list)
  /\ (passes = true ->
      forall recs, api_recommend srv payload = Json "success" recs ->
      currentMaterialSelect_value form <> "" ->
      fetched (exec run p)
      = (fetched p ++ [PostRecommend payload; PostCompare body])%list).
Proof.
  split; [|split].
  - intros Hv. destruct (rejected_run p Hv) as (msg & ->). reflexivity.
  - intros Hv H. rewrite (accepted_run p Hv).
    destruct (api_recommend srv payload) as [msg|status recs];
      [reflexivity|].
    destruct (String.eqb_spec status "success") as [->|Hs];
      [|reflexivity].
    destruct H as [H|H]; [simpl in H; contradiction|].
    rewrite H. cbv zeta. simpl String.eqb. cbv iota.
    destruct recs as [[|r0 rest]|]; read_page; reflexivity.
  - intros Hv recs E Hm. rewrite (accepted_run p Hv), E.
    rewrite String.eqb_refl. cbv zeta.
    apply String.eqb_neq in Hm. rewrite Hm.
    destruct (api_compare srv body) as [msg|status' cmp];
      [|destruct (status' =? "success")%string];
      destruct recs as [[|r0 rest]|]; read_page;
      rewrite <- app_assoc; reflexivity.
Qed.

(** The button never stays in the loading state: an accepted form leaves it
    enabled with its idle label whatever the replies are, and a form that is
    turned down does not touch it. *)
Theorem button_is_released (p : Page) :
  recommendBtn (exec run p)
  = if passes then (false, "Run Recommendation Engine") else recommendBtn p.
Proof.
  destruct passes eqn:Hv.
  - rewrite (accepted_run p Hv).
    destruct (api_recommend srv payload) as [msg|status recs];
      [reflexivity|].
    destruct (status =? "success")%string; [|reflexivity]. cbv zeta.
    destruct (currentMaterialSelect_value form =? "")%string; [reflexivity|].
    destruct (api_compare srv body) as [msg|status' cmp]; [reflexivity|].
    destruct (status' =? "success")%string; reflexivity.
  - destruct (rejected_run p Hv) as (msg & ->). reflexivity.
Qed.

(** A run that renders results ends with the alert box hidden and empty,
    whatever alert the page showed before; only the class of the box is
    left from the earlier alert. *)
Theorem rendered_run_hides_alert (p : Page) (r : RecommendationRecord)
  (rest : list RecommendationRecord) :
  passes = true ->
  api_recommend srv payload = Json "success" (Some (r :: rest)) ->
  currentMaterialSelect_value form = ""
  \/ (exists status cmp, api_compare srv body = Json status cmp) ->
  alertBox (exec run p)
  = {| alert_text := ""; alert_display := "none";
       alert_class := alert_class (alertBox p) |}.
Proof.
  intros Hv E H. rewrite (accepted_run p Hv), E, String.eqb_refl. cbv zeta.
  destruct (String.eqb_spec (currentMaterialSelect_value form) "") as [Hm|Hm];
    [read_page; reflexivity|].
  destruct H as [H|(status & cmp & H)]; [contradiction|].
  rewrite H. destruct (status =? "success")%string; read_page; reflexivity.
Qed.

(** A "success" reply without any record shows the warning and keeps the
    results section hidden; the cards and the rows of an earlier rendering
    stay in it, unseen. *)
Theorem empty_reply_warns (p : Page)
  (recs : option (list RecommendationRecord)) :
  passes = true ->
  api_recommend srv payload = Json "success" recs ->
  recs = None \/ recs = Some [] ->
  currentMaterialSelect_value form = ""
  \/ (exists status cmp, api_compare srv body = Json status cmp) ->
  let p' := exec run p in
  alertBox p' = alert "warning" "No recommendations found."
  /\ resultsSection p' = "none"
  /\ materialsGrid p' = materialsGrid p
  /\ summaryTbody p' = summaryTbody p.
Proof.
  intros Hv E Hrecs H p'. subst p'.
  rewrite (accepted_run p Hv), E, String.eqb_refl. cbv zeta.
  destruct (String.eqb_spec (currentMaterialSelect_value form) "") as [Hm|Hm].
  { destruct Hrecs as [-> | ->]; read_page; repeat split. }
  destruct H as [H|(status & cmp & H)]; [contradiction|].
  rewrite H.
  destruct (status =? "success")%string;
    destruct Hrecs as [-> | ->]; read_page; repeat split.
Qed.

Lemma no_material_one_request (p : Page) :
  passes = true -> currentMaterialSelect_value form = "" ->
  fetched (exec run p) = (fetched p ++ [PostRecommend payload])%list.
Proof.
  intros Hv Hm. rewrite (accepted_run p Hv).
  destruct (api_recommend srv payload) as [msg|status recs]; [reflexivity|].
  destruct (status =? "success")%string; [|reflexivity].
  rewrite Hm. cbv zeta. simpl String.eqb. cbv iota.
  destruct recs as [[|r0 rest]|]; read_page; reflexivity.
Qed.

Lemma json_number_null (x : JS.number) :
  json_number x = JNull <-> is_finite x = false.
Proof. destruct x; simpl; split; intros H; try reflexivity; discriminate. Qed.

Lemma json_number_top_n (x : JS.number) :
  json_number (selected_topN x) = JNumber (selected_topN x).
Proof.
  destruct (selected_topN_spec x) as [[[E|[E|E]] ->] | [_ ->]];
    try (rewrite E); reflexivity.
Qed.

(** What the bodies of the requests of a run carry, as [JSON.stringify]
    writes them.  The recommendation body has the trimmed category, the
    parsed weight (written [null] only when it is infinite), [top_n], the
    selected fragility and a budget that is [null] exactly when the trimmed
    budget field is empty or does not parse to a finite number: the budget
    is not validated.  The comparison body repeats the category and the
    weight and names the current material, which is never empty. *)
Theorem requests_carry_the_form (p : Page) :
  let budgetRaw := trim (budgetInput_value form) in
  let parsed := parseFloat (weightInput_value form) in
  let budget :=
    if (budgetRaw =? "")%string then JNull
    else json_number (parseFloat budgetRaw) in
  (forall pl, In (PostRecommend pl) (fetched (exec run p)) ->
              ~ In (PostRecommend pl) (fetched p) ->
     stringify_recommend pl
     = [ ("category", JString (trim (categorySelect_value form)));
         ("weight", json_number parsed);
         ("top_n", JNumber (selected_topN
                              (parseInt (topNSelect_value form) (JS.of_Z 10))));
         ("fragility_override", JString (fragilitySelect_value form));
         ("budget_limit", budget) ]
     /\ (budget = JNull
         <-> budgetRaw = "" \/ is_finite (parseFloat budgetRaw) = false)
     /\ (json_number parsed = JNull <-> parsed = S754_infinity false))
  /\ (forall b, In (PostCompare b) (fetched (exec run p)) ->
                ~ In (PostCompare b) (fetched p) ->
       stringify_compare b
       = [ ("category", JString (trim (categorySelect_value form)));
           ("weight", json_number parsed);
           ("current_material", JString (currentMaterialSelect_value form)) ]
       /\ currentMaterialSelect_value form <> "").
Proof.
  intros budgetRaw parsed budget. split.
  - intros pl Hin Hold.
    destruct (new_request trim parseFloat parseInt srv form p _ Hin Hold)
      as [Hv [E|E]]; [|discriminate].
    injection E as ->. split; [|split].
    + unfold stringify_recommend, payload_of. simpl.
      rewrite json_number_top_n. fold budgetRaw parsed. subst budget.
      destruct (budgetRaw =? "")%string; reflexivity.
    + subst budget. destruct (String.eqb_spec budgetRaw "") as [Hb|Hb].
      * split; [now left | reflexivity].
      * rewrite json_number_null. split; [now right|].
        intros [H|H]; [contradiction | exact H].
    + destruct (valid_true trim parseFloat form Hv) as (_ & Hnan & Hle).
      fold parsed in Hnan, Hle. rewrite json_number_null.
      destruct parsed as [s|[]| |s m e]; simpl in *; try discriminate;
        split; intros H; try reflexivity; discriminate.
  - intros b Hin Hold.
    destruct (new_request trim parseFloat parseInt srv form p _ Hin Hold)
      as [Hv [E|E]]; [discriminate|].
    injection E as ->. split; [reflexivity|].
    intros Hm.
    rewrite (no_material_one_request p Hv Hm) in Hin.
    apply in_app_or in Hin. destruct Hin as [Hin|[Hin|[]]];
      [contradiction | discriminate].
Qed.

End Outcome.

Lemma results_shown_iff_witness :
  resultsSection (exec (runRecommendation sample_trim sample_parseFloat
                          sample_parseInt (sample_server "success") sample_form)
                       blank) = "block".
Proof.
  apply (results_shown_iff sample_trim sample_parseFloat sample_parseInt
           (sample_server "success") sample_form blank).
  split; [reflexivity|]. exists bamboo, [plastic]. reflexivity.
Defined.

Lemma savings_shown_iff_witness :
  savingsSection (exec (runRecommendation sample_trim sample_parseFloat
                          sample_parseInt empty_server sample_form)
                       blank) = "block".
Proof.
  apply (savings_shown_iff sample_trim sample_parseFloat sample_parseInt
           empty_server sample_form blank).
  split; [reflexivity|]. split; [exists (Some []); reflexivity|].
  split; [discriminate|]. exists sample_comparison. reflexivity.
Defined.

Lemma requests_of_a_submission_witness :
  fetched (exec (runRecommendation sample_trim sample_parseFloat
                   sample_parseInt empty_server sample_form) blank)
  = [PostRecommend (payload_of sample_trim sample_parseFloat sample_parseInt
                      sample_form);
     PostCompare (comparison_of sample_trim sample_parseFloat sample_form)]
  /\ fetched (exec (runRecommendation sample_trim sample_parseFloat
                      sample_parseInt offline_server sample_form) blank)
     = [PostRecommend (payload_of sample_trim sample_parseFloat sample_parseInt
                         sample_form)]
  /\ fetched (exec (runRecommendation sample_trim sample_parseFloat
                      sample_parseInt empty_server unselected_form) blank)
     = [].
Proof.
  split; [|split].
  - destruct (requests_of_a_submission sample_trim sample_parseFloat
                sample_parseInt empty_server sample_form blank) as (_ & _ & H).
    apply (H eq_refl (Some []) eq_refl). discriminate.
  - destruct (requests_of_a_submission sample_trim sample_parseFloat
                sample_parseInt offline_server sample_form blank) as (_ & H & _).
    apply (H eq_refl). left. exact I.
  - destruct (requests_of_a_submission sample_trim sample_parseFloat
                sample_parseInt empty_server unselected_form blank) as (H & _).
    apply (H eq_refl).
Defined.

Lemma rendered_run_hides_alert_witness :
  alertBox (exec (runRecommendation sample_trim sample_parseFloat
                    sample_parseInt (sample_server "success") sample_form)
                 (set_alertBox (alert "error" "Something went wrong.") blank))
  = {| alert_text := ""; alert_display := "none";
       alert_class := "alert-box error" |}.
Proof.
  assert (H : exists status cmp,
             api_compare (sample_server "success")
               (comparison_of sample_trim sample_parseFloat sample_form)
             = Json status cmp)
    by (exists "success", sample_comparison; reflexivity).
  exact (rendered_run_hides_alert sample_trim sample_parseFloat sample_parseInt
           (sample_server "success") sample_form
           (set_alertBox (alert "error" "Something went wrong.") blank)
           bamboo [plastic] eq_refl eq_refl (or_intror H)).
Defined.

Lemma empty_reply_warns_witness :
  alertBox (exec (runRecommendation sample_trim sample_parseFloat
                    sample_parseInt empty_server sample_form) blank)
  = alert "warning" "No recommendations found.".
Proof.
  apply (empty_reply_warns sample_trim sample_parseFloat sample_parseInt
           empty_server sample_form blank (Some [])).
  - reflexivity.
  - reflexivity.
  - now right.
  - right. exists "success", sample_comparison. reflexivity.
Defined.

Lemma requests_carry_the_form_witness :
  let pl := payload_of sample_trim sample_parseFloat sample_parseInt vague_form in
  budget_limit pl = Some S754_nan
  /\ stringify_recommend pl
     = [ ("category", JString "Food");
         ("weight", JNumber (JS.decimal 15 1));
         ("top_n", JNumber (JS.of_Z 5));
         ("fragility_override", JString "auto");
         ("budget_limit", JNull) ].
Proof.
  intros pl. split; [reflexivity|].
  destruct (requests_carry_the_form sample_trim sample_parseFloat
              sample_parseInt (sample_server "success") vague_form blank)
    as [H _].
  destruct (H pl) as (E & _).
  - vm_compute. left. reflexivity.
  - intros [].
  - rewrite E. vm_compute. reflexivity.
Defined.

(** ** The savings panel *)

(** [displaySavings] reveals the savings panel and fills it from the
    comparison record as it is, with no further arithmetic: the reduction
    (already a percentage) with one decimal place, the saved emissions with
    four, the cost difference with two and the eco score with three, for
    every value [toFixed] prints in fixed notation; it leaves the alert, the
    results and the request log alone. *)
Theorem savings_are_formatted (cmp : ComparisonRecord) (p : Page) :
  let p' := exec (displaySavings cmp) p in
  fst (displaySavings cmp p) = Normal tt
  /\ savingsSection p' = "block"
  /\ (exists a b c d,
        savingsMetrics p'
        = [ {| box_label := "CO₂ REDUCTION";
               box_value := a ++ "%"; box_sub := b ++ " kg saved" |};
            {| box_label := "COST SAVINGS";
               box_value := "₹" ++ c; box_sub := "per unit" |};
            {| box_label := "ENVIRONMENTAL IMPACT";
               box_value := d; box_sub := "eco score" |} ]
        /\ (fixed_notation (co2_reduction_percent cmp) = true ->
            shows (co2_reduction_percent cmp) 1 a)
        /\ (fixed_notation (co2_savings_kg cmp) = true ->
            shows (co2_savings_kg cmp) 4 b)
        /\ (fixed_notation (cost_difference_inr cmp) = true ->
            shows (cost_difference_inr cmp) 2 c)
        /\ (fixed_notation (recommended_eco_score cmp) = true ->
            shows (recommended_eco_score cmp) 3 d))
  /\ map comparison_value (savingsDetails p')
     = [current_material cmp; recommended_material cmp]
  /\ alertBox p' = alertBox p
  /\ resultsSection p' = resultsSection p
  /\ materialsGrid p' = materialsGrid p
  /\ analyticsGrid p' = analyticsGrid p
  /\ summaryTbody p' = summaryTbody p
  /\ fetched p' = fetched p.
Proof.
  intros p'. subst p'. split; [reflexivity|]. split; [reflexivity|].
  split; [|repeat split].
  do 4 eexists. split; [reflexivity|].
  split; [|split; [|split]]; intros H; now apply toFixed_shows.
Qed.

Lemma savings_are_formatted_witness :
  map box_value (savingsMetrics (exec (displaySavings sample_comparison) blank))
  = ["75.0%"; "₹-5.00"; "0.900"]
  /\ exists c, shows (cost_difference_inr sample_comparison) 2 c
               /\ has_minus c = true.
Proof.
  destruct (savings_are_formatted sample_comparison blank)
    as (_ & _ & (a & b & c & d & E & _ & _ & Hc & _) & _).
  split; [vm_compute; reflexivity|].
  specialize (Hc eq_refl). exists c. split; [exact Hc|].
  destruct Hc as (_ & Hm & _). rewrite Hm. reflexivity.
Defined.

(** ** The two loaders together *)

Lemma loadCategories_cases (srv : Server) :
  (failed (api_categories srv)
   /\ forall p, exec (loadCategories srv) p
                = set_alertBox (alert "warning" "Unable to load product categories.")
                    (log_request GetCategories p))
  \/ (exists cats,
         api_categories srv = Json "success" cats
         /\ forall p, exec (loadCategories srv) p
                      = set_categorySelect (categorySelect p ++ cats)
                          (log_request GetCategories p)).
Proof.
  unfold exec. destruct (api_categories srv) as [msg|status cats] eqn:E.
  - left. split; [exact I|]. intros p.
    rewrite loadCategories_failed; [reflexivity | now rewrite E].
  - destruct (String.eqb_spec status "success") as [->|Hs].
    + right. exists cats. split; [reflexivity|]. intros p.
      now rewrite (loadCategories_success srv cats p E).
    + left. split; [exact Hs|]. intros p.
      rewrite loadCategories_failed; [reflexivity | now rewrite E].
Qed.

Lemma loadMaterials_cases (srv : Server) :
  (failed (api_materials srv)
   /\ forall p, exec (loadMaterials srv) p
                = set_alertBox (alert "warning" "Unable to load materials list.")
                    (log_request GetMaterials p))
  \/ (exists mats,
         api_materials srv = Json "success" mats
         /\ forall p, exec (loadMaterials srv) p
                      = set_currentMaterialSelect (currentMaterialSelect p ++ mats)
                          (log_request GetMaterials p)).
Proof.
  unfold exec. destruct (api_materials srv) as [msg|status mats] eqn:E.
  - left. split; [exact I|]. intros p.
    rewrite loadMaterials_failed; [reflexivity | now rewrite E].
  - destruct (String.eqb_spec status "success") as [->|Hs].
    + right. exists mats. split; [reflexivity|]. intros p.
      now rewrite (loadMaterials_success srv mats p E).
    + left. split; [exact Hs|]. intros p.
      rewrite loadMaterials_failed; [reflexivity | now rewrite E].
Qed.

(** The two loaders fill different selectors, so the order in which their
    replies are handled does not change what the selectors list; they share
    one alert box, so when both fail the warning of the one handled last is
    the one that stays. *)
Theorem loaders_are_independent (srv : Server) (p : Page) :
  let cm := exec (loadMaterials srv) (exec (loadCategories srv) p) in
  let mc := exec (loadCategories srv) (exec (loadMaterials srv) p) in
  categorySelect cm = categorySelect mc
  /\ categorySelect cm = categorySelect (exec (loadCategories srv) p)
  /\ currentMaterialSelect cm = currentMaterialSelect mc
  /\ currentMaterialSelect cm = currentMaterialSelect (exec (loadMaterials srv) p)
  /\ (failed (api_categories srv) -> failed (api_materials srv) ->
      alert_text (alertBox cm) = "Unable to load materials list."
      /\ alert_text (alertBox mc) = "Unable to load product categories.").
Proof.
  intros cm mc. subst cm mc.
  destruct (loadCategories_cases srv) as [[Fc Ec]|(cats & Rc & Ec)];
    destruct (loadMaterials_cases srv) as [[Fm Em]|(mats & Rm & Em)];
    rewrite !Ec, !Em; rewrite ?Ec, ?Em;
    (split; [reflexivity|]); (split; [reflexivity|]);
    (split; [reflexivity|]); (split; [reflexivity|]); intros Hc Hm.
  - split; reflexivity.
  - rewrite Rm in Hm. simpl in Hm. contradiction.
  - rewrite Rc in Hc. simpl in Hc. contradiction.
  - rewrite Rc in Hc. simpl in Hc. contradiction.
Qed.

Lemma loaders_are_independent_witness :
  alert_text (alertBox (exec (loadMaterials offline_server)
                          (exec (loadCategories offline_server) blank)))
  = "Unable to load materials list."
  /\ alert_text (alertBox (exec (loadCategories offline_server)
                             (exec (loadMaterials offline_server) blank)))
     = "Unable to load product categories.".
Proof.
  destruct (loaders_are_independent offline_server blank) as (_ & _ & _ & _ & H).
  exact (H I I).
Defined.

(** A submission never changes the options of the two selectors. *)
Theorem run_keeps_selectors
  (trim : string -> string) (parseFloat : string -> JS.number)
  (parseInt : string -> JS.number -> JS.number)
  (srv : Server) (form : Form) (p : Page) :
  let p' := exec (runRecommendation trim parseFloat parseInt srv form) p in
  categorySelect p' = categorySelect p
  /\ currentMaterialSelect p' = currentMaterialSelect p.
Proof.
  intros p'. subst p'.
  destruct (valid trim parseFloat form) eqn:Hv.
  - rewrite (accepted_run trim parseFloat parseInt srv form p Hv).
    destruct (api_recommend srv _) as [msg|status recs];
      [split; reflexivity|].
    destruct (status =? "success")%string; [|split; reflexivity]. cbv zeta.
    destruct (currentMaterialSelect_value form =? "")%string;
      [destruct recs as [[|r0 rest]|]; read_page; split; reflexivity|].
    destruct (api_compare srv _) as [msg|status' cmp];
      [|destruct (status' =? "success")%string];
      destruct recs as [[|r0 rest]|]; read_page; split; reflexivity.
  - destruct (rejected_run trim parseFloat parseInt srv form p Hv) as (msg & ->).
    split; reflexivity.
Qed.
